(** * hil-vpn-privop: OpenVPN configuration generation and persistence

    A shallow embedding of [cmd/hil-vpn-privop/openvpn-conf.go]: the
    path derivation functions, the interface name allocator, the
    [text/template] document and the two-file writer [OpenVpnCfg.Save],
    over an explicit model of the operating system services the Go code
    calls (exclusive file creation, writes, removal, the random source
    and the key generating subprocess). *)

From Stdlib Require Import NArith Ascii DecimalString.
From stdpp Require Import gmap strings list fin_maps.

Local Open Scope N_scope.

(** ** Strings and bytes

    A Go [string] is an immutable sequence of bytes; it is modelled as a
    Rocq [string] (a list of 8-bit [ascii]).  A Go [[]byte] is a
    [list Byte.byte].  The conversions [[]byte(s)] and [string(b)] are
    [String.list_byte_of_string] and [String.string_of_list_byte]. *)

Abbreviation bytes := (list Byte.byte).

Definition bytes_of_string (s : string) : bytes := String.list_byte_of_string s.
Definition string_of_bytes (b : bytes) : string := String.string_of_list_byte b.

(** The double quote character, for the [up] line of the template. *)
Definition dquote : string := String (Ascii.ascii_of_nat 34) "".

(** The line feed character. *)
Definition LF : Ascii.ascii := Ascii.ascii_of_nat 10.
Definition nl : string := String LF "".

(** ** Path derivation *)

Definition configDir : string := "/etc/openvpn/server".

(** [getCfgPath]: [configDir + "/" + name + ".conf"]; Go's [+] associates
    to the left. *)
Definition getCfgPath (name : string) : string :=
  ((configDir +:+ "/") +:+ name) +:+ ".conf".

(** [getKeyPath]: [configDir + "/hil-vpn-" + name + ".key"]. *)
Definition getKeyPath (name : string) : string :=
  ((configDir +:+ "/hil-vpn-") +:+ name) +:+ ".key".

(** [getServiceName]: ["openvpn-server@" + vpnName]. *)
Definition getServiceName (vpnName : string) : string :=
  "openvpn-server@" +:+ vpnName.

(** The last character of a string, if any. *)
Fixpoint string_last (s : string) : option Ascii.ascii :=
  match s with
  | "" => None
  | String c r => match r with "" => Some c | _ => string_last r end
  end.

(** ** Errors

    Go's [error] values that this file can produce or receive. *)

Inductive Errno := EEXIST | ENOENT | EACCES | ENOSPC | EIO | EBADF.

Inductive error :=
| PathError (op path : string) (errno : Errno)  (* [*os.PathError] *)
| RandError (errno : Errno)                     (* failure of [crypto/rand] *)
| ExecError (name cause : string)               (* [*exec.Error]: could not start *)
| ExitError (status : N)                        (* [*exec.ExitError], exit status *)
| SignalError (signal : N)                      (* [*exec.ExitError], killed *)
| ErrorString (msg : string)                    (* [fmt.Errorf], [errors.New] *)
| CallError (name : string) (cause : string).   (* [template.ExecError] *)

Definition itoa (n : N) : string := NilZero.string_of_uint (N.to_uint n).

Definition errno_msg (e : Errno) : string :=
  match e with
  | EEXIST => "file exists"
  | ENOENT => "no such file or directory"
  | EACCES => "permission denied"
  | ENOSPC => "no space left on device"
  | EIO => "input/output error"
  | EBADF => "bad file descriptor"
  end.

(** The [Error()] method.  [strconv.Quote] is written for names without
    characters that need escaping, which is all this program passes. *)
Definition Error (e : error) : string :=
  match e with
  | PathError op path errno => op +:+ " " +:+ path +:+ ": " +:+ errno_msg errno
  | RandError errno => errno_msg errno
  | ExecError name cause => "exec: " +:+ dquote +:+ name +:+ dquote +:+ ": " +:+ cause
  | ExitError status => "exit status " +:+ itoa status
  | SignalError signal => "signal: " +:+ itoa signal
  | ErrorString msg => msg
  | CallError name cause => "error calling " +:+ name +:+ ": " +:+ cause
  end.

(** A Go result pair [(v, err)] in which exactly one side is set. *)
Inductive Result (A : Type) :=
| Ok (a : A)
| Err (e : error).
Arguments Ok {A} a.
Arguments Err {A} e.

(** ** The operating system

    The file store maps a path to the permission bits the file was
    created with and its contents.  The counters number the write and
    random-read calls made so far, so that the environment can fail a
    particular one. *)

Record FileData := { perm : N; data : bytes }.

Record State := {
  files : gmap string FileData;
  nwrites : nat;
  nrand : nat
}.

(** What the key generating subprocess does when it is run. *)
Inductive ProcResult :=
| StartFailed (cause : string)
| Exited (status : N) (stdout : bytes)
| Killed (signal : N) (stdout : bytes).

(** The environment of one run: the statically configured helper-script
    directory ([staticconfig.Libexecdir], a constant of another package)
    and the behaviour of the system services.
    - [create_fault p]: the system refuses to create a new file at [p]
      (no space, no permission, missing directory);
    - [write_fault k]: the [k]-th write call fails after the given number
      of bytes;
    - [rand_fault k]: the [k]-th read of the random source fails;
    - [rand_byte k i]: byte [i] delivered by the [k]-th read;
    - [run_process]: the outcome of running a command. *)
Record Env := {
  staticconfig_Libexecdir : string;
  create_fault : string → option Errno;
  write_fault : nat → option (nat * Errno);
  rand_fault : nat → option Errno;
  rand_byte : nat → nat → Byte.byte;
  run_process : string → list string → ProcResult
}.

(** How a computation ends: it returns to its caller, it panics, or the
    process is terminated on the spot. *)
Inductive Outcome (A : Type) :=
| Returns (a : A)
| Panics (v : string)
| Fatal (ctx : string) (e : error).
Arguments Returns {A} a.
Arguments Panics {A} v.
Arguments Fatal {A} ctx e.

(** Computations read the environment and thread the state. *)
Definition M (A : Type) : Type := Env → State → Outcome A * State.

Definition M_ret {A} (a : A) : M A := λ _ s, (Returns a, s).

Definition M_bind {A B} (k : A → M B) (m : M A) : M B :=
  λ env s,
    match m env s with
    | (Returns a, s') => k a env s'
    | (Panics v, s') => (Panics v, s')
    | (Fatal ctx e, s') => (Fatal ctx e, s')
    end.

#[global] Instance M_mret : MRet M := @M_ret.
#[global] Instance M_mbind : MBind M := @M_bind.

Definition panic {A} (v : string) : M A := λ _ s, (Panics v, s).

(** *** Files *)

(** [*os.File]: an open file, identified by the path it was opened at
    (this program never writes to a file after unlinking it). *)
Record OsFile := { fname : string }.

(** Open flags, with their Linux values. *)
Definition O_RDWR : N := 0x2.
Definition O_CREATE : N := 0x40.
Definition O_EXCL : N := 0x80.

Definition has_flag (flag bit : N) : bool := negb (N.land flag bit =? 0).

Definition set_files (s : State) (m : gmap string FileData) : State :=
  {| files := m; nwrites := nwrites s; nrand := nrand s |}.

(** [os.OpenFile(name, flag, perm)].  With [O_CREATE|O_EXCL] an existing
    path is refused with [EEXIST]; a missing path is created empty with
    mode [perm] unless the system refuses the creation. *)
Definition OpenFile (name : string) (flag perm : N) : M (Result OsFile) :=
  λ env s,
    match files s !! name with
    | Some _ =>
        if has_flag flag O_CREATE && has_flag flag O_EXCL
        then (Returns (Err (PathError "open" name EEXIST)), s)
        else (Returns (Ok {| fname := name |}), s)
    | None =>
        if has_flag flag O_CREATE
        then match create_fault env name with
             | Some e => (Returns (Err (PathError "open" name e)), s)
             | None =>
                 (Returns (Ok {| fname := name |}),
                  set_files s (<[name := {| perm := perm; data := [] |}]> (files s)))
             end
        else (Returns (Err (PathError "open" name ENOENT)), s)
    end.

(** [f.Write(b)]: writes at the file offset, which for the files of
    this program, created empty and written front to back, is the end
    of the file; returns the number of bytes written and an error when
    that is short of [len(b)] or the call failed. *)
Definition Write (f : OsFile) (b : bytes) : M (nat * option error) :=
  λ env s,
    match files s !! fname f with
    | None => (Returns (0%nat, Some (PathError "write" (fname f) EBADF)), s)
    | Some fd =>
        let k := nwrites s in
        let put (w : bytes) :=
          {| files := <[fname f := {| perm := perm fd; data := data fd ++ w |}]> (files s);
             nwrites := S k; nrand := nrand s |} in
        match write_fault env k with
        | Some (n, e) =>
            (Returns (length (take n b), Some (PathError "write" (fname f) e)),
             put (take n b))
        | None => (Returns (length b, None), put b)
        end
    end.

(** [f.Close()]. *)
Definition Close (f : OsFile) : M (option error) := mret None.

(** [os.Remove(name)]. *)
Definition Remove (name : string) : M (option error) :=
  λ env s,
    match files s !! name with
    | Some _ => (Returns None, set_files s (delete name (files s)))
    | None => (Returns (Some (PathError "remove" name ENOENT)), s)
    end.

(** *** Random source and subprocesses *)

(** [rand.Read(b)]: fills the whole of [b] or fails; returns the buffer,
    the count and the error. *)
Definition rand_Read (b : bytes) : M (bytes * nat * option error) :=
  λ env s,
    let k := nrand s in
    let s' := {| files := files s; nwrites := nwrites s; nrand := S k |} in
    match rand_fault env k with
    | Some e => (Returns (b, 0%nat, Some (RandError e)), s')
    | None => (Returns (rand_byte env k <$> seq 0 (length b), length b, None), s')
    end.

Record Cmd := { Path : string; Args : list string }.

(** [exec.Command(name, arg...)]. *)
Definition Command (name : string) (arg : list string) : Cmd :=
  {| Path := name; Args := name :: arg |}.

(** [cmd.Output()]: runs the command and returns its standard output;
    the error is nil exactly when the command ran and exited with
    status zero.  The subprocess is given no path to write to. *)
Definition Output (c : Cmd) : M (bytes * option error) :=
  λ env s,
    match run_process env (Path c) (Args c) with
    | StartFailed cause => (Returns ([], Some (ExecError (Path c) cause)), s)
    | Exited status out =>
        if status =? 0 then (Returns (out, None), s)
        else (Returns (out, Some (ExitError status)), s)
    | Killed signal out => (Returns (out, Some (SignalError signal)), s)
    end.

(** [fmt.Errorf(prefix + "%v", err)]. *)
Definition Errorf_v (prefix : string) (err : error) : error :=
  ErrorString (prefix +:+ Error err).

(** Modelled from the spec: [chkfatal], a helper of package [main] that
    is defined outside this file.  A nil error is a no-op; a non-nil
    error is fatal and non-recoverable and terminates the calling
    operation immediately: control never returns to the caller, so no
    deferred function of any caller runs. *)
Definition chkfatal (ctx : string) (err : option error) : M unit :=
  λ env s,
    match err with
    | None => (Returns (), s)
    | Some e => (Fatal ctx e, s)
    end.

(** ** Interface names

    [encoding/base64]: an encoding is its 64-character alphabet and an
    optional padding character. *)

Record Encoding := { encode : string; padChar : option Ascii.ascii }.

Definition encodeURL : string :=
  "ABCDEFGHIJKLMNOPQRSTUVWXYZabcdefghijklmnopqrstuvwxyz0123456789-_".

(** [base64.RawURLEncoding]: the URL-safe alphabet, no padding. *)
Definition RawURLEncoding : Encoding := {| encode := encodeURL; padChar := None |}.

(** [enc.encode[i]]; every index used below is masked with [0x3F]. *)
Definition enc_at (enc : Encoding) (i : N) : Ascii.ascii :=
  default Ascii.zero (String.get (N.to_nat i) (encode enc)).

Definition pad (enc : Encoding) (n : nat) : string :=
  match padChar enc with
  | Some c => Nat.iter n (String c) ""
  | None => ""
  end.

(** [enc.Encode]: three source bytes become four characters; a final
    block of one or two bytes becomes two or three characters, padded
    only when the encoding has a padding character. *)
Fixpoint Encode (enc : Encoding) (src : bytes) : string :=
  match src with
  | [] => ""
  | [b0] =>
      let val := N.shiftl (Byte.to_N b0) 16 in
      String (enc_at enc (N.land (N.shiftr val 18) 0x3F))
        (String (enc_at enc (N.land (N.shiftr val 12) 0x3F)) (pad enc 2))
  | [b0; b1] =>
      let val := N.lor (N.shiftl (Byte.to_N b0) 16) (N.shiftl (Byte.to_N b1) 8) in
      String (enc_at enc (N.land (N.shiftr val 18) 0x3F))
        (String (enc_at enc (N.land (N.shiftr val 12) 0x3F))
           (String (enc_at enc (N.land (N.shiftr val 6) 0x3F)) (pad enc 1)))
  | b0 :: b1 :: b2 :: rest =>
      let val := N.lor (N.lor (N.shiftl (Byte.to_N b0) 16) (N.shiftl (Byte.to_N b1) 8))
                       (Byte.to_N b2) in
      String (enc_at enc (N.land (N.shiftr val 18) 0x3F))
        (String (enc_at enc (N.land (N.shiftr val 12) 0x3F))
           (String (enc_at enc (N.land (N.shiftr val 6) 0x3F))
              (String (enc_at enc (N.land val 0x3F)) (Encode enc rest))))
  end.

Definition EncodeToString (enc : Encoding) (src : bytes) : string := Encode enc src.

(** The slice expression [s[:hi]]; out of range it panics. *)
Definition slice_to (s : string) (hi : nat) : option string :=
  if (hi <=? String.length s)%nat then Some (String.substring 0 hi s) else None.

Record OpenVpnCfg := {
  Name : string;
  Key : string;
  Port : N;   (* uint16 *)
  Vlan : N    (* uint16 *)
}.

(** [templateArg]: the config, embedded, and the helper-script directory. *)
Record templateArg := {
  embedded : OpenVpnCfg;
  Libexecdir : string
}.

(** [cfg.NewInterfaceName()]. *)
Definition NewInterfaceName (cfg : OpenVpnCfg) : M string :=
  let data := replicate 16 Byte.x00 in
  '(data, _, err) ← rand_Read data;
  chkfatal "Generating interface name" err;;
  match slice_to (EncodeToString RawURLEncoding data) 12 with
  | Some s => mret s
  | None => panic "runtime error: slice bounds out of range"
  end.

(** The characters of the URL-safe base64 alphabet. *)
Definition is_urlsafe (c : Ascii.ascii) : bool :=
  let n := Ascii.N_of_ascii c in
  ((65 <=? n) && (n <=? 90)) || ((97 <=? n) && (n <=? 122)) ||
  ((48 <=? n) && (n <=? 57)) || (n =? 45) || (n =? 95).

Fixpoint string_forallb (p : Ascii.ascii → bool) (s : string) : bool :=
  match s with
  | "" => true
  | String c r => p c && string_forallb p r
  end.

(** ** The configuration template

    [text/template], as far as this template uses it: literal text and
    actions of the form [{{ .Field }}]. *)

Inductive Node :=
| TextNode (text : string)
| ActionNode (field : string).

Inductive LexState := InText | InTextBrace | InAction | InActionBrace.

Definition emit_text (cur : string) (acc : list Node) : list Node :=
  match cur with
  | "" => acc
  | _ => TextNode (String.rev cur) :: acc
  end.

Fixpoint ltrim (s : string) : string :=
  match s with
  | "" => ""
  | String c r => if Ascii.eqb c " "%char then ltrim r else s
  end.

Definition trim (s : string) : string :=
  String.rev (ltrim (String.rev (ltrim s))).

Definition is_ident_char (c : Ascii.ascii) : bool :=
  let n := Ascii.N_of_ascii c in
  ((65 <=? n) && (n <=? 90)) || ((97 <=? n) && (n <=? 122)) ||
  ((48 <=? n) && (n <=? 57)) || (n =? 95).

(** The body of an action: a dot and a field name. *)
Definition parse_action (body : string) : option string :=
  match trim body with
  | String "."%char (String c r) =>
      if string_forallb is_ident_char (String c r) then Some (String c r) else None
  | _ => None
  end.

(** The scanner: [cur] is the text or action body read so far, reversed,
    and [acc] the nodes produced so far, last first. *)
Fixpoint lex (src : string) (st : LexState) (cur : string) (acc : list Node)
  : option (list Node) :=
  match src with
  | "" =>
      match st with
      | InText => Some (rev (emit_text cur acc))
      | InTextBrace => Some (rev (emit_text (String "{"%char cur) acc))
      | InAction | InActionBrace => None
      end
  | String c r =>
      match st with
      | InText =>
          if Ascii.eqb c "{"%char then lex r InTextBrace cur acc
          else lex r InText (String c cur) acc
      | InTextBrace =>
          if Ascii.eqb c "{"%char then lex r InAction "" (emit_text cur acc)
          else lex r InText (String c (String "{"%char cur)) acc
      | InAction =>
          if Ascii.eqb c "}"%char then lex r InActionBrace cur acc
          else lex r InAction (String c cur) acc
      | InActionBrace =>
          if Ascii.eqb c "}"%char then
            match parse_action (String.rev cur) with
            | Some f => lex r InText "" (ActionNode f :: acc)
            | None => None
            end
          else lex r InAction (String c (String "}"%char cur)) acc
      end
  end.

(** [template.New(name).Parse(text)]. *)
Definition Parse (text : string) : option (list Node) := lex text InText "" [].

(** [template.Must]: a template that does not parse stops the program
    when the package is initialised. *)
Definition Must (t : option (list Node)) : list Node := default [] t.

Definition openVpnCfgTplText : string :=
"
# This file is automatically generated by hil-vpn-privop; do not modify manually.

dev tap{{ .NewInterfaceName }}
secret hil-vpn-{{ .Name }}.key

# The default cipher is insecure, so we explicitly set the cipher to the openvpn
# project's recommendation. See https://community.openvpn.net/openvpn/wiki/SWEET32
cipher AES-256-CBC

lport {{ .Port }}

up " +:+ dquote +:+ "{{ .Libexecdir }}/hil-vpn-hook-up {{ .Vlan }}" +:+ dquote +:+ "
# Needed to permit the above to actually run:
script-security 2

user nobody
group nobody
".

Definition openVpnCfgTpl : list Node := Must (Parse openVpnCfgTplText).

(** Values an action can yield, and how [fmt.Fprint] prints them. *)
Inductive Value :=
| VString (s : string)
| VUint16 (n : N).

Definition Sprint (v : Value) : string :=
  match v with
  | VString s => s
  | VUint16 n => itoa n
  end.

(** [safeCall]: a panic in a called method becomes an error. *)
Definition safeCall {A} (m : M A) : M (Result A) :=
  λ env s,
    match m env s with
    | (Returns a, s') => (Returns (Ok a), s')
    | (Panics v, s') => (Returns (Err (ErrorString v)), s')
    | (Fatal ctx e, s') => (Fatal ctx e, s')
    end.

(** Evaluation of [.field] on a [templateArg]: the method
    [NewInterfaceName] and the fields of the struct and of the config
    embedded in it. *)
Definition evalField (dot : templateArg) (field : string) : M (Result Value) :=
  if String.eqb field "NewInterfaceName" then
    r ← safeCall (NewInterfaceName (embedded dot));
    match r with
    | Ok s => mret (Ok (VString s))
    | Err e => mret (Err (CallError field (Error e)))
    end
  else if String.eqb field "Name" then mret (Ok (VString (Name (embedded dot))))
  else if String.eqb field "Key" then mret (Ok (VString (Key (embedded dot))))
  else if String.eqb field "Port" then mret (Ok (VUint16 (Port (embedded dot))))
  else if String.eqb field "Vlan" then mret (Ok (VUint16 (Vlan (embedded dot))))
  else if String.eqb field "Libexecdir" then mret (Ok (VString (Libexecdir dot)))
  else mret (Err (ErrorString ("can't evaluate field " +:+ field))).

(** The walk over the nodes: text is written as it is, an action is
    evaluated and its value printed; the first error ends the walk. *)
Fixpoint walk (nodes : list Node) (wr : OsFile) (dot : templateArg) : M (option error) :=
  match nodes with
  | [] => mret None
  | TextNode text :: rest =>
      '(_, err) ← Write wr (bytes_of_string text);
      match err with
      | Some e => mret (Some e)
      | None => walk rest wr dot
      end
  | ActionNode field :: rest =>
      r ← evalField dot field;
      match r with
      | Err e => mret (Some e)
      | Ok v =>
          '(_, err) ← Write wr (bytes_of_string (Sprint v));
          match err with
          | Some e => mret (Some e)
          | None => walk rest wr dot
          end
      end
  end.

(** [t.Execute(wr, data)]. *)
Definition Execute (t : list Node) (wr : OsFile) (dot : templateArg) : M (option error) :=
  walk t wr dot.

(** ** Saving

    [defer]: the deferred function runs when the body returns or panics,
    and reads the function's [err] variable.  Every [return] of [Save]
    returns that variable; where the body could panic it is still nil.
    A terminated process runs no deferred function. *)
Definition defer (deferred : option error → M unit) (body : M (option error))
  : M (option error) :=
  λ env s,
    match body env s with
    | (Returns err, s') =>
        match deferred err env s' with
        | (Returns _, s'') => (Returns err, s'')
        | (Panics v, s'') => (Panics v, s'')
        | (Fatal ctx e, s'') => (Fatal ctx e, s'')
        end
    | (Panics v, s') =>
        match deferred None env s' with
        | (Returns _, s'') => (Panics v, s'')
        | (Panics v', s'') => (Panics v', s'')
        | (Fatal ctx e, s'') => (Fatal ctx e, s'')
        end
    | (Fatal ctx e, s') => (Fatal ctx e, s')
    end.

(** Mode [0600]. *)
Definition mode_0600 : N := 6 * 64 + 0 * 8 + 0.

Definition get_Libexecdir : M string :=
  λ env s, (Returns (staticconfig_Libexecdir env), s).

(** [cfg.Save()]. *)
Definition Save (cfg : OpenVpnCfg) : M (option error) :=
  let cfgPath := getCfgPath (Name cfg) in
  let keyPath := getKeyPath (Name cfg) in
  r ← OpenFile cfgPath (N.lor (N.lor O_CREATE O_EXCL) O_RDWR) mode_0600;
  match r with
  | Err err => mret (Some err)
  | Ok cfgFile =>
      defer (λ err,
               Close cfgFile;;
               match err with
               | Some _ => Remove cfgPath;; mret ()
               | None => mret ()
               end)
        (r ← OpenFile keyPath (N.lor (N.lor O_CREATE O_EXCL) O_RDWR) mode_0600;
         match r with
         | Err err => mret (Some err)
         | Ok keyFile =>
             defer (λ err,
                      Close keyFile;;
                      match err with
                      | Some _ => Remove keyPath;; mret ()
                      | None => mret ()
                      end)
               (libexecdir ← get_Libexecdir;
                let arg := {| embedded := cfg; Libexecdir := libexecdir |} in
                err ← Execute openVpnCfgTpl cfgFile arg;
                match err with
                | Some e => mret (Some e)
                | None =>
                    '(_, err) ← Write keyFile (bytes_of_string (Key cfg));
                    mret err
                end)
         end)
  end.

(** [NewOpenVpnConfig(name, vlan, port)]. *)
Definition NewOpenVpnConfig (name : string) (vlan port : N)
  : M (option OpenVpnCfg * option error) :=
  let cmd := Command "openvpn" ["--genkey"; "--secret"; "/dev/fd/1"] in
  '(output, err) ← Output cmd;
  match err with
  | Some e => mret (None, Some (Errorf_v "Error invoking openvpn: " e))
  | None =>
      mret (Some {| Name := name; Port := port; Vlan := vlan;
                    Key := string_of_bytes output |}, None)
  end.

(** ** Reading a document back *)

(** The lines of a text: its pieces between line feeds. *)
Fixpoint lines (s : string) : list string :=
  match s with
  | "" => [""]
  | String c r =>
      if Ascii.eqb c LF then "" :: lines r
      else match lines r with
           | l :: ls => String c l :: ls
           | [] => [String c ""]
           end
  end.

(** ** Notions used to state the properties *)

(** A file after [w] has been appended to it. *)
Definition append_data (w : bytes) (fd : FileData) : FileData :=
  {| perm := perm fd; data := data fd ++ w |}.

Definition string_concat (l : list string) : string := foldr String.append "" l.

(** The text one node of a template contributes to the document: a text
    node its text, an action the printed value of its field. *)
Inductive rendered (env : Env) (dot : templateArg) : Node → string → Prop :=
| rendered_text (t : string) : rendered env dot (TextNode t) t
| rendered_action (f : string) (v : Value) (s s' : State) :
    evalField dot f env s = (Returns (Ok v), s') →
    rendered env dot (ActionNode f) (Sprint v).

(** The state after the two deferred removals of [Save]. *)
Definition rolled_back (cfg : OpenVpnCfg) (s : State) : State :=
  set_files s (delete (getCfgPath (Name cfg)) (delete (getKeyPath (Name cfg)) (files s))).

(** The state after [Save] has created both files. *)
Definition both_created (cfg : OpenVpnCfg) (s : State) : State :=
  set_files s
    (<[getKeyPath (Name cfg) := {| perm := mode_0600; data := [] |}]>
       (<[getCfgPath (Name cfg) := {| perm := mode_0600; data := [] |}]> (files s))).

(** The text of the [i]-th node of the template, when it is a text node. *)
Definition tpl_text (i : nat) : string :=
  match openVpnCfgTpl !! i with
  | Some (TextNode t) => t
  | _ => ""
  end.

(** The pieces of the document for a given interface name, and the
    document they make up. *)
Definition document_chunks (dot : templateArg) (ifname : string) : list string :=
  [tpl_text 0; ifname; tpl_text 2; Name (embedded dot); tpl_text 4;
   itoa (Port (embedded dot)); tpl_text 6; Libexecdir dot; tpl_text 8;
   itoa (Vlan (embedded dot)); tpl_text 10].

Definition document (dot : templateArg) (ifname : string) : string :=
  string_concat (document_chunks dot ifname).

(** A subprocess result other than a normal exit with status zero:
    the command could not be started, exited with another status, or
    was killed. *)
Definition abnormal (r : ProcResult) : Prop :=
  match r with
  | Exited 0 _ => False
  | _ => True
  end.

(** The error [cmd.Output()] reports for a subprocess result. *)
Definition process_error (path : string) (r : ProcResult) : option error :=
  match r with
  | StartFailed cause => Some (ExecError path cause)
  | Exited 0 _ => None
  | Exited status _ => Some (ExitError status)
  | Killed signal _ => Some (SignalError signal)
  end.

(** ** Sample runs *)

Definition cfg_lab1 : OpenVpnCfg :=
  {| Name := "lab1"; Key := "0123456789abcdef"; Port := 1194; Vlan := 42 |}.

(** An environment in which nothing fails. *)
Definition env_ok : Env :=
  {| staticconfig_Libexecdir := "/usr/libexec/hil-vpn";
     create_fault := λ _, None;
     write_fault := λ _, None;
     rand_fault := λ _, None;
     rand_byte := λ k i, default Byte.x00 (Byte.of_N (N.of_nat (17 * i + k)));
     run_process := λ _ _, Exited 0 (bytes_of_string "0123456789abcdef") |}.

(** The twelfth write, the one of the key, fails after three bytes. *)
Definition env_key_write_fails : Env :=
  {| staticconfig_Libexecdir := "/usr/libexec/hil-vpn";
     create_fault := λ _, None;
     write_fault := λ k, if (k =? 11)%nat then Some (3%nat, ENOSPC) else None;
     rand_fault := λ _, None;
     rand_byte := λ k i, default Byte.x00 (Byte.of_N (N.of_nat (17 * i + k)));
     run_process := λ _ _, Exited 0 (bytes_of_string "0123456789abcdef") |}.

(** The random source cannot supply bytes. *)
Definition env_no_entropy : Env :=
  {| staticconfig_Libexecdir := "/usr/libexec/hil-vpn";
     create_fault := λ _, None;
     write_fault := λ _, None;
     rand_fault := λ _, Some EIO;
     rand_byte := λ _ _, Byte.x00;
     run_process := λ _ _, Exited 0 (bytes_of_string "0123456789abcdef") |}.

Definition other_file : FileData :=
  {| perm := 420; data := bytes_of_string "unrelated" |}.

(** A store with one unrelated file. *)
Definition st_fresh : State :=
  {| files := {[ "/etc/openvpn/server/other.conf" := other_file ]};
     nwrites := 0; nrand := 0 |}.

(** A store in which the config file of [lab1] exists already. *)
Definition st_cfg_exists : State :=
  {| files := {[ "/etc/openvpn/server/lab1.conf" := other_file ]};
     nwrites := 0; nrand := 0 |}.

(** A store in which the key file of [lab1] exists already. *)
Definition st_key_exists : State :=
  {| files := {[ "/etc/openvpn/server/hil-vpn-lab1.key" := other_file ]};
     nwrites := 0; nrand := 0 |}.

(** The names an action of the template can use on a [templateArg]:
    the method and the fields [evalField] resolves. *)
Definition known_field (f : string) : bool :=
  existsb (String.eqb f)
    ["NewInterfaceName"; "Name"; "Key"; "Port"; "Vlan"; "Libexecdir"].

Definition known_node (n : Node) : bool :=
  match n with
  | TextNode _ => true
  | ActionNode f => known_field f
  end.

(** Lines joined by line feeds: the inverse reading of [lines]. *)
Fixpoint join_lines (ls : list string) : string :=
  match ls with
  | [] => ""
  | l :: rest =>
      match rest with
      | [] => l
      | _ :: _ => l +:+ String LF (join_lines rest)
      end
  end.

(** A second network, and the store left by a successful [Save] of the
    first. *)
Definition cfg_lab2 : OpenVpnCfg :=
  {| Name := "lab2"; Key := "fedcba9876543210"; Port := 1195; Vlan := 43 |}.

Definition st_lab1_saved : State := (Save cfg_lab1 env_ok st_fresh).2.

(** * Properties *)

#[local] Arguments String.append !_ _ / : simpl nomatch.

(** ** Facts about string concatenation *)

Section StringFacts.

Lemma string_app_assoc (a b c : string) : (a +:+ b) +:+ c = a +:+ (b +:+ c).
Proof. induction a as [|x a IH]; simpl; [done | by rewrite IH]. Qed.

Lemma string_app_nil_r (a : string) : a +:+ "" = a.
Proof. induction a as [|x a IH]; simpl; [done | by rewrite IH]. Qed.

Lemma string_length_app (a b : string) :
  String.length (a +:+ b) = (String.length a + String.length b)%nat.
Proof. induction a as [|x a IH]; simpl; [done | by rewrite IH]. Qed.

(** Concatenation with a fixed suffix is injective. *)
Lemma string_app_inv_tail (a b s : string) : a +:+ s = b +:+ s → a = b.
Proof.
  revert b. induction a as [|x a IH]; intros [|y b] H; simpl in H.
  - done.
  - apply (f_equal String.length) in H. simpl in H.
    rewrite string_length_app in H. lia.
  - apply (f_equal String.length) in H. simpl in H.
    rewrite string_length_app in H. lia.
  - injection H as -> H. f_equal. by apply IH.
Qed.

Lemma string_last_app (a b : string) :
  b ≠ "" → string_last (a +:+ b) = string_last b.
Proof.
  intros Hb. induction a as [|x a IH]; simpl; [done|].
  rewrite <- IH. destruct (a +:+ b) eqn:E; [|done].
  destruct a; simpl in E; [congruence | discriminate].
Qed.

End StringFacts.

(** ** Path derivation: results *)

(** C9: the derived config path, key path and service unit name are the
    fixed prefix, the name, and the fixed suffix, for every name. *)
Theorem derived_paths_shape (name : string) :
  getCfgPath name = "/etc/openvpn/server/" +:+ name +:+ ".conf" ∧
  getKeyPath name = "/etc/openvpn/server/hil-vpn-" +:+ name +:+ ".key" ∧
  getServiceName name = "openvpn-server@" +:+ name.
Proof. repeat split. Qed.

Lemma getCfgPath_inj (n1 n2 : string) : getCfgPath n1 = getCfgPath n2 → n1 = n2.
Proof.
  unfold getCfgPath. intros H. apply string_app_inv_tail in H.
  by apply (inj (String.app (configDir +:+ "/"))) in H.
Qed.

Lemma getKeyPath_inj (n1 n2 : string) : getKeyPath n1 = getKeyPath n2 → n1 = n2.
Proof.
  unfold getKeyPath. intros H. apply string_app_inv_tail in H.
  by apply (inj (String.app (configDir +:+ "/hil-vpn-"))) in H.
Qed.

Lemma getCfgPath_ne_getKeyPath (n1 n2 : string) : getCfgPath n1 ≠ getKeyPath n2.
Proof.
  unfold getCfgPath, getKeyPath. intros H.
  apply (f_equal string_last) in H.
  rewrite !string_last_app in H by discriminate. discriminate.
Qed.

(** C10: the path derivations never alias: each is injective, and no
    config path equals any key path, whatever the two names are. *)
Theorem paths_never_alias :
  (∀ n1 n2, getCfgPath n1 = getCfgPath n2 → n1 = n2) ∧
  (∀ n1 n2, getKeyPath n1 = getKeyPath n2 → n1 = n2) ∧
  (∀ n1 n2, getCfgPath n1 ≠ getKeyPath n2).
Proof.
  split; [exact getCfgPath_inj|].
  split; [exact getKeyPath_inj | exact getCfgPath_ne_getKeyPath].
Qed.

(** ** The monad *)

Ltac unfold_M :=
  unfold mbind, M_mbind, M_bind, mret, M_mret, M_ret in *.

(** ** Interface names *)

Section InterfaceName.

Lemma land_0x3F_lt (x : N) : N.land x 0x3F < 64.
Proof.
  change 0x3F with (N.ones 6). rewrite N.land_ones.
  apply N.mod_lt. discriminate.
Qed.

Lemma alphabet_urlsafe :
  forallb (λ i, is_urlsafe (enc_at RawURLEncoding (N.of_nat i))) (seq 0 64) = true.
Proof. vm_compute. reflexivity. Qed.

Lemma enc_at_urlsafe (x : N) :
  is_urlsafe (enc_at RawURLEncoding (N.land x 0x3F)) = true.
Proof.
  pose proof (land_0x3F_lt x) as Hlt.
  pose proof alphabet_urlsafe as Hall.
  rewrite forallb_forall in Hall.
  specialize (Hall (N.to_nat (N.land x 0x3F))).
  rewrite N2Nat.id in Hall. apply Hall.
  apply in_seq. lia.
Qed.

Lemma string_forallb_cons (p : ascii → bool) (c : ascii) (r : string) :
  p c = true → string_forallb p r = true → string_forallb p (String c r) = true.
Proof. intros Hc Hr. simpl. by rewrite Hc, Hr. Qed.

(** The encoding recurses three bytes at a time; the statement for a
    list is proved together with those for the list with one and two
    more bytes in front. *)
Lemma Encode_urlsafe_aux (src : bytes) :
  string_forallb is_urlsafe (Encode RawURLEncoding src) = true ∧
  (∀ a, string_forallb is_urlsafe (Encode RawURLEncoding (a :: src)) = true) ∧
  (∀ a b, string_forallb is_urlsafe (Encode RawURLEncoding (a :: b :: src)) = true).
Proof.
  induction src as [|c src (IH0 & IH1 & IH2)].
  - split; [reflexivity|]. split.
    + intros a. do 2 (apply string_forallb_cons; [apply enc_at_urlsafe|]).
      reflexivity.
    + intros a b. do 3 (apply string_forallb_cons; [apply enc_at_urlsafe|]).
      reflexivity.
  - split; [exact (IH1 c)|]. split; [exact (λ a, IH2 a c)|].
    intros a b.
    do 4 (apply string_forallb_cons; [apply enc_at_urlsafe|]).
    exact IH0.
Qed.

Lemma Encode_urlsafe (src : bytes) :
  string_forallb is_urlsafe (EncodeToString RawURLEncoding src) = true.
Proof. apply Encode_urlsafe_aux. Qed.

(** Sixteen bytes encode to twenty-two characters. *)
Lemma Encode_16_length (src : bytes) :
  length src = 16%nat →
  String.length (EncodeToString RawURLEncoding src) = 22%nat.
Proof.
  intros H.
  do 16 (destruct src as [|? src]; [discriminate H|]).
  destruct src; [reflexivity | discriminate H].
Qed.

Lemma substring_0_length (n : nat) (s : string) :
  (n ≤ String.length s)%nat → String.length (String.substring 0 n s) = n.
Proof.
  revert s. induction n as [|n IH]; intros [|c s] H; simpl in *; try lia.
  f_equal. apply IH. lia.
Qed.

Lemma substring_0_forallb (p : ascii → bool) (n : nat) (s : string) :
  string_forallb p s = true → string_forallb p (String.substring 0 n s) = true.
Proof.
  revert s. induction n as [|n IH]; intros [|c s] H; simpl in *; try done.
  apply andb_true_iff in H as [Hc Hs]. rewrite Hc. simpl. by apply IH.
Qed.

Lemma rand_Read_eq (b : bytes) (env : Env) (s : State) :
  rand_Read b env s =
    (Returns (match rand_fault env (nrand s) with
              | Some e => (b, 0%nat, Some (RandError e))
              | None => (rand_byte env (nrand s) <$> seq 0 (length b), length b, None)
              end),
     {| files := files s; nwrites := nwrites s; nrand := S (nrand s) |}).
Proof. unfold rand_Read. by destruct (rand_fault env (nrand s)). Qed.

(** What [NewInterfaceName] does, in one equation. *)
Lemma NewInterfaceName_eq (cfg : OpenVpnCfg) (env : Env) (s : State) :
  NewInterfaceName cfg env s =
    (match rand_fault env (nrand s) with
     | Some e => Fatal "Generating interface name" (RandError e)
     | None =>
         Returns (String.substring 0 12
                    (EncodeToString RawURLEncoding
                       (rand_byte env (nrand s) <$> seq 0 16)))
     end,
     {| files := files s; nwrites := nwrites s; nrand := S (nrand s) |}).
Proof.
  unfold NewInterfaceName. unfold_M. rewrite rand_Read_eq.
  destruct (rand_fault env (nrand s)) as [e|]; [reflexivity|].
  cbn [chkfatal]. unfold slice_to.
  rewrite Encode_16_length; [reflexivity|].
  by rewrite length_fmap, length_seq.
Qed.

Lemma NewInterfaceName_files cfg env s o s' :
  NewInterfaceName cfg env s = (o, s') → files s' = files s.
Proof. rewrite NewInterfaceName_eq. by intros [= _ <-]. Qed.

(** The allocator returns whenever the random source delivers. *)
Lemma NewInterfaceName_returns cfg env s :
  rand_fault env (nrand s) = None →
  ∃ name s', NewInterfaceName cfg env s = (Returns name, s').
Proof. intros H. rewrite NewInterfaceName_eq, H. eauto. Qed.

Lemma interface_name_shape (data : bytes) :
  length data = 16%nat →
  let name := String.substring 0 12 (EncodeToString RawURLEncoding data) in
  String.length name = 12%nat ∧ string_forallb is_urlsafe name = true.
Proof.
  intros Hlen name. subst name. split.
  - apply substring_0_length. rewrite Encode_16_length by done. lia.
  - apply substring_0_forallb, Encode_urlsafe.
Qed.

Lemma NewInterfaceName_shape cfg env s name s' :
  NewInterfaceName cfg env s = (Returns name, s') →
  String.length name = 12%nat ∧ string_forallb is_urlsafe name = true.
Proof.
  rewrite NewInterfaceName_eq.
  destruct (rand_fault env (nrand s)); [discriminate|].
  intros H.
  assert (name = String.substring 0 12
                   (EncodeToString RawURLEncoding
                      (rand_byte env (nrand s) <$> seq 0 16))) as ->
    by congruence.
  apply interface_name_shape. by rewrite length_fmap, length_seq.
Qed.

End InterfaceName.

(** C6: a call of [NewInterfaceName] that returns has drawn 16 bytes
    from the random source, and returns the first 12 characters of their
    unpadded URL-safe base64 encoding: a string of exactly 12 characters,
    all of them in the URL-safe alphabet. *)
Theorem NewInterfaceName_spec (cfg : OpenVpnCfg) (env : Env) (s s' : State)
    (name : string) :
  NewInterfaceName cfg env s = (Returns name, s') →
  ∃ data : bytes,
    rand_Read (replicate 16 Byte.x00) env s = (Returns (data, 16%nat, None), s') ∧
    length data = 16%nat ∧
    name = String.substring 0 12 (EncodeToString RawURLEncoding data) ∧
    String.length name = 12%nat ∧
    string_forallb is_urlsafe name = true.
Proof.
  intros H. pose proof (NewInterfaceName_shape _ _ _ _ _ H) as [Hlen Hsafe].
  rewrite NewInterfaceName_eq in H. rewrite rand_Read_eq.
  destruct (rand_fault env (nrand s)); [discriminate|].
  assert (Hs : s' = {| files := files s; nwrites := nwrites s; nrand := S (nrand s) |})
    by congruence.
  assert (Hn : name = String.substring 0 12
                        (EncodeToString RawURLEncoding
                           (rand_byte env (nrand s) <$> seq 0 16)))
    by congruence.
  exists (rand_byte env (nrand s) <$> seq 0 16).
  split; [by rewrite Hs|]. split; [by rewrite length_fmap, length_seq|].
  split; [exact Hn | done].
Qed.

(** ** The file store *)

Section FileStore.

Lemma set_files_id (s : State) : set_files s (files s) = s.
Proof. by destruct s. Qed.

Lemma append_data_nil (fd : FileData) : append_data [] fd = fd.
Proof. destruct fd. unfold append_data. simpl. by rewrite app_nil_r. Qed.

Lemma alter_append_nil (p : string) (m : gmap string FileData) :
  alter (append_data []) p m = m.
Proof. apply alter_id. intros. apply append_data_nil. Qed.

Lemma alter_append_append (w1 w2 : bytes) (p : string) (m : gmap string FileData) :
  alter (append_data w2) p (alter (append_data w1) p m)
  = alter (append_data (w1 ++ w2)) p m.
Proof.
  rewrite alter_alter_eq. apply alter_ext. intros fd _.
  unfold append_data. simpl. by rewrite app_assoc.
Qed.

Lemma insert_is_alter (p : string) (f : FileData → FileData) (fd : FileData)
    (m : gmap string FileData) :
  m !! p = Some fd → <[p := f fd]> m = alter f p m.
Proof.
  intros H. apply map_eq. intros q. destruct (decide (p = q)) as [<-|Hne].
  - by rewrite lookup_insert_eq, lookup_alter_eq, H.
  - by rewrite lookup_insert_ne, lookup_alter_ne.
Qed.

(** Exclusive creation, in one equation. *)
Lemma OpenFile_excl_eq (p : string) (mode : N) (env : Env) (s : State) :
  OpenFile p (N.lor (N.lor O_CREATE O_EXCL) O_RDWR) mode env s =
    match files s !! p with
    | Some _ => (Returns (Err (PathError "open" p EEXIST)), s)
    | None =>
        match create_fault env p with
        | Some e => (Returns (Err (PathError "open" p e)), s)
        | None =>
            (Returns (Ok {| fname := p |}),
             set_files s (<[p := {| perm := mode; data := [] |}]> (files s)))
        end
    end.
Proof. reflexivity. Qed.

Lemma Write_spec (f : OsFile) (b : bytes) (env : Env) (s : State) o s' :
  Write f b env s = (o, s') →
  ∃ n err w,
    o = Returns (n, err) ∧
    files s' = alter (append_data w) (fname f) (files s) ∧
    (err = None → w = b ∧ is_Some (files s !! fname f)).
Proof.
  unfold Write. destruct (files s !! fname f) as [fd|] eqn:Hfd.
  - destruct (write_fault env (nwrites s)) as [[k e]|]; intros H;
      apply pair_equal_spec in H as [<- <-]; do 2 eexists.
    + exists (take k b). split; [done|]. split; [|done].
      simpl. by apply (insert_is_alter _ (append_data (take k b))).
    + exists b. split; [done|]. split; [|eauto].
      simpl. by apply (insert_is_alter _ (append_data b)).
  - intros H. apply pair_equal_spec in H as [<- <-].
    exists 0%nat, (Some (PathError "write" (fname f) EBADF)), [].
    split; [done|]. split; [|done]. by rewrite alter_append_nil.
Qed.

Lemma Remove_spec (p : string) (env : Env) (s : State) :
  ∃ r, Remove p env s = (Returns r, set_files s (delete p (files s))).
Proof.
  unfold Remove. destruct (files s !! p) eqn:Hp; [eauto|].
  eexists. by rewrite delete_id, set_files_id.
Qed.

End FileStore.

(** ** The template *)

Section Template.

(** The template parses, into eleven nodes. *)
Lemma openVpnCfgTpl_nodes :
  Parse openVpnCfgTplText = Some openVpnCfgTpl ∧
  openVpnCfgTpl =
    [TextNode (tpl_text 0); ActionNode "NewInterfaceName";
     TextNode (tpl_text 2); ActionNode "Name";
     TextNode (tpl_text 4); ActionNode "Port";
     TextNode (tpl_text 6); ActionNode "Libexecdir";
     TextNode (tpl_text 8); ActionNode "Vlan";
     TextNode (tpl_text 10)].
Proof. split; reflexivity. Qed.

Lemma evalField_spec (dot : templateArg) (f : string) (env : Env) (s : State) o s' :
  evalField dot f env s = (o, s') →
  files s' = files s ∧ ∀ v, o ≠ Panics v.
Proof.
  unfold evalField.
  destruct (String.eqb f "NewInterfaceName").
  { unfold_M. unfold safeCall. rewrite NewInterfaceName_eq.
    destruct (rand_fault env (nrand s)); intros H;
      apply pair_equal_spec in H as [<- <-]; by split. }
  repeat match goal with
         | |- context [if ?b then _ else _] => destruct b
         end;
    unfold_M; intros H; apply pair_equal_spec in H as [<- <-]; by split.
Qed.

Lemma bytes_of_string_app (a b : string) :
  bytes_of_string (a +:+ b) = bytes_of_string a ++ bytes_of_string b.
Proof.
  unfold bytes_of_string, String.list_byte_of_string.
  induction a as [|c a IH]; simpl; [done | by rewrite IH].
Qed.

(** What a walk does to the files: it appends to the file written to,
    and touches nothing else; when it ends without error, what it
    appended is the text of the nodes, in order. *)
Lemma walk_spec (wr : OsFile) (dot : templateArg) (env : Env) (nodes : list Node) :
  ∀ s o s',
    walk nodes wr dot env s = (o, s') →
    ∃ w,
      files s' = alter (append_data w) (fname wr) (files s) ∧
      match o with
      | Returns None =>
          ∃ chunks, Forall2 (rendered env dot) nodes chunks ∧
                    w = bytes_of_string (string_concat chunks)
      | Returns (Some _) => True
      | Panics _ => False
      | Fatal _ _ => True
      end.
Proof.
  induction nodes as [|[text|field] rest IH]; intros s o s' H.
  - apply pair_equal_spec in H as [<- <-]. exists [].
    split; [by rewrite alter_append_nil|]. exists []. by split; [constructor|].
  - cbn [walk] in H. unfold_M.
    destruct (Write wr (bytes_of_string text) env s) as [o1 s1] eqn:Hw.
    apply Write_spec in Hw as (n & err & w1 & -> & Hf1 & Herr).
    destruct err as [e|].
    + apply pair_equal_spec in H as [<- <-]. by exists w1.
    + destruct (Herr eq_refl) as [-> _].
      apply IH in H as (w2 & Hf2 & Ho).
      exists (bytes_of_string text ++ w2). split.
      * by rewrite Hf2, Hf1, alter_append_append.
      * destruct o as [[e|]| |]; try done.
        destruct Ho as (chunks & Hall & ->). exists (text :: chunks).
        split; [constructor; [constructor | done]|].
        simpl. by rewrite bytes_of_string_app.
  - cbn [walk] in H. unfold_M.
    destruct (evalField dot field env s) as [o0 s0] eqn:Hev.
    pose proof (evalField_spec _ _ _ _ _ _ Hev) as [Hf0 Hnp].
    destruct o0 as [[v|e]|v|ctx e].
    + destruct (Write wr (bytes_of_string (Sprint v)) env s0) as [o1 s1] eqn:Hw.
      apply Write_spec in Hw as (n & err & w1 & -> & Hf1 & Herr).
      rewrite Hf0 in Hf1. destruct err as [e|].
      * apply pair_equal_spec in H as [<- <-]. by exists w1.
      * destruct (Herr eq_refl) as [-> _].
        apply IH in H as (w2 & Hf2 & Ho).
        exists (bytes_of_string (Sprint v) ++ w2). split.
        -- by rewrite Hf2, Hf1, alter_append_append.
        -- destruct o as [[e|]| |]; try done.
           destruct Ho as (chunks & Hall & ->). exists (Sprint v :: chunks).
           split; [constructor; [by econstructor | done]|].
           simpl. by rewrite bytes_of_string_app.
    + apply pair_equal_spec in H as [<- <-]. exists [].
      split; [by rewrite alter_append_nil, Hf0 | done].
    + by destruct (Hnp v).
    + apply pair_equal_spec in H as [<- <-]. exists [].
      split; [by rewrite alter_append_nil, Hf0 | done].
Qed.

End Template.

(** ** Saving: the paths through [Save] *)

Section SavePaths.

Variable cfg : OpenVpnCfg.
Variable env : Env.

Local Abbreviation cfgPath := (getCfgPath (Name cfg)).
Local Abbreviation keyPath := (getKeyPath (Name cfg)).
Local Abbreviation arg :=
  {| embedded := cfg; Libexecdir := staticconfig_Libexecdir env |}.

Lemma cfgPath_ne_keyPath : cfgPath ≠ keyPath.
Proof. apply getCfgPath_ne_getKeyPath. Qed.

(** The config file exists: the first creation is refused. *)
Lemma Save_cfg_exists (s : State) (fd : FileData) :
  files s !! cfgPath = Some fd →
  Save cfg env s = (Returns (Some (PathError "open" cfgPath EEXIST)), s).
Proof.
  intros H. unfold Save. unfold_M. rewrite OpenFile_excl_eq.
  by rewrite H.
Qed.

(** The system refuses to create the config file. *)
Lemma Save_cfg_refused (s : State) (e : Errno) :
  files s !! cfgPath = None → create_fault env cfgPath = Some e →
  Save cfg env s = (Returns (Some (PathError "open" cfgPath e)), s).
Proof.
  intros H He. unfold Save. unfold_M. rewrite OpenFile_excl_eq.
  by rewrite H, He.
Qed.

(** The state after the config file has been created and removed again. *)
Lemma create_remove_cfg (s : State) :
  files s !! cfgPath = None →
  set_files s (delete cfgPath (<[cfgPath := {| perm := mode_0600; data := [] |}]> (files s)))
  = s.
Proof. intros H. by rewrite delete_insert_id, set_files_id. Qed.

(** The second creation fails, because the key file exists or the
    system refuses: the config file just created is removed. *)
Lemma Save_key_failed (s : State) :
  files s !! cfgPath = None → create_fault env cfgPath = None →
  (is_Some (files s !! keyPath) ∨ is_Some (create_fault env keyPath)) →
  ∃ errno,
    Save cfg env s = (Returns (Some (PathError "open" keyPath errno)), s) ∧
    (is_Some (files s !! keyPath) → errno = EEXIST).
Proof.
  intros Hc Hcf Hk. unfold Save, defer. unfold_M.
  rewrite OpenFile_excl_eq. rewrite Hc, Hcf.
  rewrite OpenFile_excl_eq.
  cbn [files set_files]. rewrite lookup_insert_ne by apply cfgPath_ne_keyPath.
  destruct (files s !! keyPath) as [fd|] eqn:Hkf.
  - exists EEXIST. split; [|done].
    unfold Close, Remove. unfold_M. cbn [files set_files].
    rewrite lookup_insert_eq. f_equal. exact (create_remove_cfg s Hc).
  - destruct Hk as [[? [=]]|[e He]]. exists e. split; [|by intros [? [=]]].
    rewrite He. unfold Close, Remove. unfold_M. cbn [files set_files].
    rewrite lookup_insert_eq. f_equal. exact (create_remove_cfg s Hc).
Qed.

(** Both files are created: what follows is the rendering and the key
    write, with both removals when either reports an error. *)
Lemma Save_created (s : State) :
  files s !! cfgPath = None → create_fault env cfgPath = None →
  files s !! keyPath = None → create_fault env keyPath = None →
  Save cfg env s =
    match Execute openVpnCfgTpl {| fname := cfgPath |} arg env (both_created cfg s) with
    | (Returns (Some e), s3) => (Returns (Some e), rolled_back cfg s3)
    | (Returns None, s3) =>
        match Write {| fname := keyPath |} (bytes_of_string (Key cfg)) env s3 with
        | (Returns (_, Some e), s4) => (Returns (Some e), rolled_back cfg s4)
        | (Returns (_, None), s4) => (Returns None, s4)
        | (Panics v, s4) => (Panics v, s4)
        | (Fatal ctx e, s4) => (Fatal ctx e, s4)
        end
    | (Panics v, s3) => (Panics v, s3)
    | (Fatal ctx e, s3) => (Fatal ctx e, s3)
    end.
Proof.
  intros Hc Hcf Hk Hkf. unfold Save, defer. unfold_M.
  rewrite OpenFile_excl_eq. rewrite Hc, Hcf.
  rewrite OpenFile_excl_eq.
  cbn [files set_files]. rewrite lookup_insert_ne by apply cfgPath_ne_keyPath.
  rewrite Hk, Hkf. unfold get_Libexecdir.
  change (set_files (set_files s _) _) with (both_created cfg s).
  destruct (Execute openVpnCfgTpl {| fname := cfgPath |} arg env (both_created cfg s))
    as [[[e|]|v|ctx e] s3]; try reflexivity.
  - unfold Close. unfold_M.
    destruct (Remove_spec keyPath env s3) as [r1 ->].
    destruct (Remove_spec cfgPath env (set_files s3 (delete keyPath (files s3))))
      as [r2 ->].
    reflexivity.
  - destruct (Write {| fname := keyPath |} (bytes_of_string (Key cfg)) env s3)
      as [[[n [e|]]|v|ctx e] s4]; try reflexivity.
    unfold Close. unfold_M.
    destruct (Remove_spec keyPath env s4) as [r1 ->].
    destruct (Remove_spec cfgPath env (set_files s4 (delete keyPath (files s4))))
      as [r2 ->].
    reflexivity.
Qed.

(** Undoing the two creations restores the files, whatever was
    appended to the two files in between. *)
Lemma rolled_back_files (s s3 : State) :
  files s !! cfgPath = None → files s !! keyPath = None →
  (∀ q, q ≠ cfgPath → q ≠ keyPath → files s3 !! q = files s !! q) →
  files (rolled_back cfg s3) = files s.
Proof.
  intros Hc Hk Hother. unfold rolled_back.
  cbn [files set_files]. apply map_eq. intros q.
  destruct (decide (q = cfgPath)) as [->|Hqc]; [by rewrite lookup_delete_eq|].
  rewrite lookup_delete_ne by done.
  destruct (decide (q = keyPath)) as [->|Hqk]; [by rewrite lookup_delete_eq|].
  rewrite lookup_delete_ne by done. by apply Hother.
Qed.

(** What [Save] leaves behind once both files have been created. *)
Lemma Save_created_outcome (s : State) o s' :
  files s !! cfgPath = None → create_fault env cfgPath = None →
  files s !! keyPath = None → create_fault env keyPath = None →
  Save cfg env s = (o, s') →
  match o with
  | Returns (Some _) => files s' = files s
  | Returns None =>
      ∃ chunks,
        Forall2 (rendered env arg) openVpnCfgTpl chunks ∧
        files s' =
          <[keyPath := {| perm := mode_0600; data := bytes_of_string (Key cfg) |}]>
            (<[cfgPath := {| perm := mode_0600;
                             data := bytes_of_string (string_concat chunks) |}]>
               (files s))
  | Panics _ => False
  | Fatal _ _ =>
      ∃ w,
        files s' =
          <[keyPath := {| perm := mode_0600; data := [] |}]>
            (<[cfgPath := {| perm := mode_0600; data := w |}]> (files s))
  end.
Proof.
  intros Hc Hcf Hk Hkf. rewrite Save_created by done. unfold Execute.
  pose proof cfgPath_ne_keyPath as Hne.
  destruct (walk openVpnCfgTpl {| fname := cfgPath |} arg env (both_created cfg s))
    as [o3 s3] eqn:Hw.
  apply walk_spec in Hw as (w & Hf3 & Ho3). cbn [fname] in Hf3.
  assert (Hf3' : files s3 =
                   <[keyPath := {| perm := mode_0600; data := [] |}]>
                     (<[cfgPath := {| perm := mode_0600; data := w |}]> (files s))).
  { rewrite Hf3. unfold both_created. cbn [files set_files].
    rewrite alter_insert_ne by done. by rewrite alter_insert_eq. }
  assert (Hother3 : ∀ q, q ≠ cfgPath → q ≠ keyPath → files s3 !! q = files s !! q).
  { intros q ? ?. rewrite Hf3'. by rewrite !lookup_insert_ne. }
  destruct o3 as [[e|]|v|ctx e].
  - intros H. apply pair_equal_spec in H as [<- <-]. by apply rolled_back_files.
  - destruct (Write {| fname := keyPath |} (bytes_of_string (Key cfg)) env s3)
      as [o4 s4] eqn:Hw4.
    apply Write_spec in Hw4 as (n & err & w4 & -> & Hf4 & Herr). cbn [fname] in Hf4.
    destruct err as [e|]; intros H; apply pair_equal_spec in H as [<- <-].
    + apply rolled_back_files; try done. intros q ? ?.
      rewrite Hf4, lookup_alter_ne by done. by apply Hother3.
    + destruct (Herr eq_refl) as [-> _]. destruct Ho3 as (chunks & Hall & ->).
      exists chunks. split; [done|].
      rewrite Hf4, Hf3'. by rewrite alter_insert_eq.
  - done.
  - intros H. apply pair_equal_spec in H as [<- <-]. by exists w.
Qed.

End SavePaths.

(** ** Saving: results *)

(** C1: a call of [Save] that returns an error leaves the files exactly
    as they were: the store is the same map, so a config or key file
    that did not exist does not exist afterwards, and every file that
    existed is unchanged. *)
Theorem Save_error_restores_files (cfg : OpenVpnCfg) (env : Env) (s s' : State)
    (e : error) :
  Save cfg env s = (Returns (Some e), s') →
  files s' = files s ∧
  (files s !! getCfgPath (Name cfg) = None → files s' !! getCfgPath (Name cfg) = None) ∧
  (files s !! getKeyPath (Name cfg) = None → files s' !! getKeyPath (Name cfg) = None) ∧
  (∀ p fd, files s !! p = Some fd → files s' !! p = Some fd).
Proof.
  intros H.
  assert (Hfiles : files s' = files s).
  { destruct (files s !! getCfgPath (Name cfg)) as [fd|] eqn:Hc.
    { rewrite (Save_cfg_exists cfg env s fd Hc) in H. congruence. }
    destruct (create_fault env (getCfgPath (Name cfg))) as [en|] eqn:Hcf.
    { rewrite (Save_cfg_refused cfg env s en Hc Hcf) in H. congruence. }
    destruct (files s !! getKeyPath (Name cfg)) as [fd|] eqn:Hk.
    { destruct (Save_key_failed cfg env s Hc Hcf) as (en & Heq & _).
      - left. rewrite Hk. eauto.
      - rewrite Heq in H. congruence. }
    destruct (create_fault env (getKeyPath (Name cfg))) as [en|] eqn:Hkf.
    { destruct (Save_key_failed cfg env s Hc Hcf) as (en' & Heq & _).
      - right. rewrite Hkf. eauto.
      - rewrite Heq in H. congruence. }
    exact (Save_created_outcome cfg env s _ _ Hc Hcf Hk Hkf H). }
  rewrite Hfiles. auto.
Qed.

(** [Save] reports success only after creating both files itself. *)
Lemma Save_success_created (cfg : OpenVpnCfg) (env : Env) (s s' : State) :
  Save cfg env s = (Returns None, s') →
  files s !! getCfgPath (Name cfg) = None ∧
  create_fault env (getCfgPath (Name cfg)) = None ∧
  files s !! getKeyPath (Name cfg) = None ∧
  create_fault env (getKeyPath (Name cfg)) = None.
Proof.
  intros H.
  destruct (files s !! getCfgPath (Name cfg)) as [fd|] eqn:Hc.
  { rewrite (Save_cfg_exists cfg env s fd Hc) in H. congruence. }
  destruct (create_fault env (getCfgPath (Name cfg))) as [en|] eqn:Hcf.
  { rewrite (Save_cfg_refused cfg env s en Hc Hcf) in H. congruence. }
  destruct (files s !! getKeyPath (Name cfg)) as [fd|] eqn:Hk.
  { destruct (Save_key_failed cfg env s Hc Hcf) as (en & Heq & _).
    - left. rewrite Hk. eauto.
    - rewrite Heq in H. congruence. }
  destruct (create_fault env (getKeyPath (Name cfg))) as [en|] eqn:Hkf.
  { destruct (Save_key_failed cfg env s Hc Hcf) as (en' & Heq & _).
    - right. rewrite Hkf. eauto.
    - rewrite Heq in H. congruence. }
  done.
Qed.

(** C3: after a call of [Save] that returns nil, the config file and the
    key file both exist, neither existed before, both have mode 0600
    (no group or other bits), and the key file holds the bytes of the
    [Key] field: when [Key] is [string(output)], exactly [output]. *)
Theorem Save_success_files (cfg : OpenVpnCfg) (env : Env) (s s' : State) :
  Save cfg env s = (Returns None, s') →
  files s !! getCfgPath (Name cfg) = None ∧
  files s !! getKeyPath (Name cfg) = None ∧
  (∃ doc, files s' !! getCfgPath (Name cfg) = Some {| perm := mode_0600; data := doc |}) ∧
  files s' !! getKeyPath (Name cfg)
    = Some {| perm := mode_0600; data := bytes_of_string (Key cfg) |} ∧
  mode_0600 = 0x180 ∧ N.land mode_0600 0x3F = 0 ∧
  (∀ output, Key cfg = string_of_bytes output →
             files s' !! getKeyPath (Name cfg)
               = Some {| perm := mode_0600; data := output |}).
Proof.
  intros H. destruct (Save_success_created _ _ _ _ H) as (Hc & Hcf & Hk & Hkf).
  pose proof (Save_created_outcome cfg env s _ _ Hc Hcf Hk Hkf H)
    as (chunks & _ & Hfiles).
  pose proof (getCfgPath_ne_getKeyPath (Name cfg) (Name cfg)) as Hne.
  assert (Hkey : files s' !! getKeyPath (Name cfg)
                 = Some {| perm := mode_0600; data := bytes_of_string (Key cfg) |}).
  { by rewrite Hfiles, lookup_insert_eq. }
  split; [done|]. split; [done|]. split.
  { eexists. rewrite Hfiles, lookup_insert_ne by done. by rewrite lookup_insert_eq. }
  split; [done|]. split; [reflexivity|]. split; [reflexivity|].
  intros output Hout. rewrite Hkey, Hout. unfold bytes_of_string, string_of_bytes.
  by rewrite String.list_byte_of_string_of_list_byte.
Qed.

(** C4: when the config file exists, [Save] fails with the collision
    error of the exclusive creation, the existing config file is as it
    was, and no key file is created: the state is unchanged. *)
Theorem Save_cfg_collision (cfg : OpenVpnCfg) (env : Env) (s : State) (fd : FileData) :
  files s !! getCfgPath (Name cfg) = Some fd →
  ∃ s',
    Save cfg env s
      = (Returns (Some (PathError "open" (getCfgPath (Name cfg)) EEXIST)), s') ∧
    files s' !! getCfgPath (Name cfg) = Some fd ∧
    files s' !! getKeyPath (Name cfg) = files s !! getKeyPath (Name cfg) ∧
    s' = s.
Proof.
  intros H. exists s. by rewrite (Save_cfg_exists cfg env s fd H).
Qed.

(** C5: when the key file exists and the config file does not, [Save]
    fails; afterwards there is no config file, the key file is as it
    was, and so is every other file.  Unless the system refused to
    create the config file in the first place, the error is the
    collision on the key path. *)
Theorem Save_key_collision (cfg : OpenVpnCfg) (env : Env) (s : State) (fd : FileData) :
  files s !! getKeyPath (Name cfg) = Some fd →
  files s !! getCfgPath (Name cfg) = None →
  ∃ e s',
    Save cfg env s = (Returns (Some e), s') ∧
    files s' !! getCfgPath (Name cfg) = None ∧
    files s' !! getKeyPath (Name cfg) = Some fd ∧
    files s' = files s ∧
    (create_fault env (getCfgPath (Name cfg)) = None →
     e = PathError "open" (getKeyPath (Name cfg)) EEXIST).
Proof.
  intros Hk Hc.
  destruct (create_fault env (getCfgPath (Name cfg))) as [en|] eqn:Hcf.
  - exists (PathError "open" (getCfgPath (Name cfg)) en), s.
    by rewrite (Save_cfg_refused cfg env s en Hc Hcf).
  - destruct (Save_key_failed cfg env s Hc Hcf) as (en & Heq & Hen).
    { left. rewrite Hk. eauto. }
    exists (PathError "open" (getKeyPath (Name cfg)) en), s.
    rewrite Heq. repeat split; try done.
    intros _. rewrite Hen; [done|]. rewrite Hk. eauto.
Qed.

(** ** The rendered document *)

Section Document.

Lemma lines_nonempty (s : string) : lines s ≠ [].
Proof.
  destruct s as [|c r]; simpl; [done|].
  destruct (Ascii.eqb c LF); [done|]. by destruct (lines r).
Qed.

(** A line feed separates the lines before it from those after it. *)
Lemma lines_app_LF (a b : string) :
  lines (a +:+ String LF b) = lines a ++ lines b.
Proof.
  induction a as [|c a IH]; [reflexivity|].
  simpl. destruct (Ascii.eqb c LF); rewrite IH; [done|].
  pose proof (lines_nonempty a). by destruct (lines a).
Qed.

Lemma urlsafe_not_LF (c : ascii) : is_urlsafe c = true → Ascii.eqb c LF = false.
Proof.
  intros H. destruct (Ascii.eqb_spec c LF) as [->|]; [|done].
  by vm_compute in H.
Qed.

(** A string of URL-safe characters is a single line. *)
Lemma lines_urlsafe (n : string) :
  string_forallb is_urlsafe n = true → lines n = [n].
Proof.
  induction n as [|c n IH]; [done|]. simpl.
  intros [Hc Hn]%andb_true_iff. by rewrite (urlsafe_not_LF c Hc), (IH Hn).
Qed.

Variable env : Env.
Variable dot : templateArg.

Lemma rendered_text_inv (t c : string) : rendered env dot (TextNode t) c → c = t.
Proof. by inversion 1. Qed.

(** The value of a field other than the method: the state is not
    consulted. *)
Lemma rendered_field_inv (f c : string) (v : Value) :
  (∀ s, evalField dot f env s = (Returns (Ok v), s)) →
  rendered env dot (ActionNode f) c → c = Sprint v.
Proof.
  intros Hf H. inversion H as [|f' v' s s' Hev]; subst.
  rewrite Hf in Hev. congruence.
Qed.

Lemma rendered_ifname_inv (c : string) :
  rendered env dot (ActionNode "NewInterfaceName") c →
  String.length c = 12%nat ∧ string_forallb is_urlsafe c = true.
Proof.
  intros H. inversion H as [|f' v s s' Hev]; subst.
  change (evalField dot "NewInterfaceName" env s)
    with (M_bind (λ r, match r with
                       | Ok n => M_ret (Ok (VString n))
                       | Err e => M_ret (Err (CallError "NewInterfaceName" (Error e)))
                       end)
            (safeCall (NewInterfaceName (embedded dot))) env s) in Hev.
  unfold M_bind, M_ret, safeCall in Hev.
  destruct (NewInterfaceName (embedded dot) env s) as [[n|p|ctx e] s1] eqn:Hn;
    [|discriminate..].
  assert (v = VString n) as -> by congruence.
  exact (NewInterfaceName_shape _ _ _ _ _ Hn).
Qed.

(** The chunks of the document, one per node of the template. *)
Lemma openVpnCfgTpl_rendered (chunks : list string) :
  Forall2 (rendered env dot) openVpnCfgTpl chunks →
  ∃ ifname,
    String.length ifname = 12%nat ∧ string_forallb is_urlsafe ifname = true ∧
    chunks = document_chunks dot ifname.
Proof.
  destruct openVpnCfgTpl_nodes as [_ Htpl]. rewrite Htpl. intros H.
  repeat match type of H with
         | Forall2 _ (_ :: _) _ =>
             let c := fresh "c" in
             let Hc := fresh "Hc" in
             apply Forall2_cons_inv_l in H as (c & ? & Hc & H & ->)
         end.
  apply Forall2_nil_inv_l in H as ->.
  apply rendered_text_inv in Hc as ->. apply rendered_ifname_inv in Hc0 as [Hlen Hsafe].
  apply rendered_text_inv in Hc1 as ->.
  apply (rendered_field_inv _ _ (VString (Name (embedded dot)))) in Hc2 as ->; [|done].
  apply rendered_text_inv in Hc3 as ->.
  apply (rendered_field_inv _ _ (VUint16 (Port (embedded dot)))) in Hc4 as ->; [|done].
  apply rendered_text_inv in Hc5 as ->.
  apply (rendered_field_inv _ _ (VString (Libexecdir dot))) in Hc6 as ->; [|done].
  apply rendered_text_inv in Hc7 as ->.
  apply (rendered_field_inv _ _ (VUint16 (Vlan (embedded dot)))) in Hc8 as ->; [|done].
  apply rendered_text_inv in Hc9 as ->.
  by exists c0.
Qed.

End Document.

Section DocumentLines.

(** Text without a line feed, put after a text, extends its last line. *)
Lemma lines_app_urlsafe (a x : string) :
  string_forallb is_urlsafe x = true →
  lines (a +:+ x) = removelast (lines a) ++ [List.last (lines a) "" +:+ x].
Proof.
  intros Hx. induction a as [|c a IH]; [by apply lines_urlsafe|].
  pose proof (lines_nonempty a) as Hne.
  simpl. destruct (Ascii.eqb c LF); rewrite IH.
  - destruct (lines a) as [|l [|l' ls]]; done.
  - destruct (lines a) as [|l [|l' ls]]; done.
Qed.

(** The lines of a document whose second chunk is an interface name
    followed by a line feed. *)
Lemma lines_document (t0 x r : string) (rest : list string) :
  string_forallb is_urlsafe x = true →
  lines (string_concat (t0 :: x :: (nl +:+ r) :: rest))
  = removelast (lines t0) ++ [List.last (lines t0) "" +:+ x]
      ++ lines (string_concat (r :: rest)).
Proof.
  intros Hx.
  change (string_concat (t0 :: x :: (nl +:+ r) :: rest))
    with (t0 +:+ x +:+ String LF (string_concat (r :: rest))).
  rewrite <- string_app_assoc, lines_app_LF, (lines_app_urlsafe _ _ Hx).
  by rewrite <- app_assoc.
Qed.

(** The document for the network [lab1], line by line. *)
Lemma lab1_document_lines (key ifname : string) :
  string_forallb is_urlsafe ifname = true →
  lines (document
           {| embedded := {| Name := "lab1"; Key := key; Port := 1194; Vlan := 42 |};
              Libexecdir := "/usr/libexec/hil-vpn" |} ifname)
  = [""; "# This file is automatically generated by hil-vpn-privop; do not modify manually.";
     ""; "dev tap" +:+ ifname;
     "secret hil-vpn-lab1.key"; "";
     "# The default cipher is insecure, so we explicitly set the cipher to the openvpn";
     "# project's recommendation. See https://community.openvpn.net/openvpn/wiki/SWEET32";
     "cipher AES-256-CBC"; "";
     "lport 1194"; "";
     "up " +:+ dquote +:+ "/usr/libexec/hil-vpn/hil-vpn-hook-up 42" +:+ dquote;
     "# Needed to permit the above to actually run:";
     "script-security 2"; "";
     "user nobody"; "group nobody"; ""].
Proof.
  intros Hx. unfold document, document_chunks.
  change (tpl_text 2) with (nl +:+ "secret hil-vpn-").
  rewrite (lines_document _ _ _ _ Hx). reflexivity.
Qed.

End DocumentLines.

(** A successful [Save] leaves the rendered document in the config file. *)
Lemma Save_success_document (cfg : OpenVpnCfg) (env : Env) (s s' : State) :
  Save cfg env s = (Returns None, s') →
  ∃ ifname,
    String.length ifname = 12%nat ∧ string_forallb is_urlsafe ifname = true ∧
    files s' !! getCfgPath (Name cfg)
      = Some {| perm := mode_0600;
                data := bytes_of_string
                          (document {| embedded := cfg;
                                       Libexecdir := staticconfig_Libexecdir env |}
                                    ifname) |}.
Proof.
  intros H. destruct (Save_success_created _ _ _ _ H) as (Hc & Hcf & Hk & Hkf).
  pose proof (Save_created_outcome cfg env s _ _ Hc Hcf Hk Hkf H)
    as (chunks & Hall & Hfiles).
  apply openVpnCfgTpl_rendered in Hall as (ifname & Hlen & Hsafe & ->).
  exists ifname. split; [done|]. split; [done|].
  rewrite Hfiles, lookup_insert_ne by (symmetry; apply getCfgPath_ne_getKeyPath).
  by rewrite lookup_insert_eq.
Qed.

(** C7: for [Name = "lab1"], [Vlan = 42], [Port = 1194] and the helper
    directory [/usr/libexec/hil-vpn], the document a successful [Save]
    leaves in the config file has the lines [lport 1194],
    [up "/usr/libexec/hil-vpn/hil-vpn-hook-up 42"],
    [secret hil-vpn-lab1.key], [cipher AES-256-CBC], [script-security 2]
    and a line [dev tap] followed by 12 URL-safe base64 characters. *)
Theorem lab1_rendered_document (env : Env) (s s' : State) (key : string) :
  staticconfig_Libexecdir env = "/usr/libexec/hil-vpn" →
  Save {| Name := "lab1"; Key := key; Port := 1194; Vlan := 42 |} env s
    = (Returns None, s') →
  ∃ fd ifname,
    files s' !! getCfgPath "lab1" = Some fd ∧
    String.length ifname = 12%nat ∧ string_forallb is_urlsafe ifname = true ∧
    let ls := lines (string_of_bytes (data fd)) in
    In "lport 1194" ls ∧
    In ("up " +:+ dquote +:+ "/usr/libexec/hil-vpn/hil-vpn-hook-up 42" +:+ dquote) ls ∧
    In "secret hil-vpn-lab1.key" ls ∧
    In "cipher AES-256-CBC" ls ∧
    In "script-security 2" ls ∧
    In ("dev tap" +:+ ifname) ls.
Proof.
  intros Hdir H.
  apply Save_success_document in H as (ifname & Hlen & Hsafe & Hfile).
  rewrite Hdir in Hfile. cbn [Name] in Hfile.
  eexists _, ifname. split; [exact Hfile|]. split; [done|]. split; [done|].
  cbn [data]. unfold string_of_bytes, bytes_of_string.
  rewrite String.string_of_list_byte_of_string.
  rewrite (lab1_document_lines key ifname Hsafe).
  cbn [In]. repeat split; auto 20.
Qed.

(** ** Key generation *)

(** C8: [NewOpenVpnConfig] always returns, and leaves the state (so
    every file) as it was.  It returns no config and an error exactly
    when the subprocess could not run or ended abnormally; the error
    then carries the message of the process failure.  When the
    subprocess exits normally, it returns a config with the given name,
    VLAN and port whose key is the whole standard output, byte for
    byte, and no error. *)
Theorem NewOpenVpnConfig_spec (name : string) (vlan port : N) (env : Env) (s : State) :
  let r := run_process env "openvpn" ["openvpn"; "--genkey"; "--secret"; "/dev/fd/1"] in
  ∃ cfg err,
    NewOpenVpnConfig name vlan port env s = (Returns (cfg, err), s) ∧
    (abnormal r ↔ cfg = None ∧ is_Some err) ∧
    (abnormal r →
     ∃ cause, process_error "openvpn" r = Some cause ∧
              err = Some (ErrorString ("Error invoking openvpn: " +:+ Error cause))) ∧
    (∀ output, r = Exited 0 output →
       err = None ∧
       cfg = Some {| Name := name; Key := string_of_bytes output;
                     Port := port; Vlan := vlan |} ∧
       bytes_of_string (string_of_bytes output) = output).
Proof.
  intros r. unfold NewOpenVpnConfig, Output, Command. unfold_M. cbn [Path Args].
  fold r. destruct r as [cause|[|status] out|signal out]; cbn [N.eqb abnormal].
  - do 2 eexists. split; [reflexivity|]. split; [by eauto|].
    split; [by eauto | discriminate].
  - do 2 eexists. split; [reflexivity|]. split.
    { split; [done | by intros [[=] _]]. }
    split; [done|]. intros output [= <-]. repeat split.
    apply String.list_byte_of_string_of_list_byte.
  - do 2 eexists. split; [reflexivity|]. split; [by eauto|].
    split; [by eauto | discriminate].
  - do 2 eexists. split; [reflexivity|]. split; [by eauto|].
    split; [by eauto | discriminate].
Qed.

(** ** Failure of the random source *)

(** Whenever [Save] is cut short by a fatal error, it had created both
    files, and both are left behind. *)
Lemma Save_fatal_leaves_files (cfg : OpenVpnCfg) (env : Env) (s s' : State)
    (ctx : string) (e : error) :
  Save cfg env s = (Fatal ctx e, s') →
  files s !! getCfgPath (Name cfg) = None ∧
  files s !! getKeyPath (Name cfg) = None ∧
  is_Some (files s' !! getCfgPath (Name cfg)) ∧
  files s' !! getKeyPath (Name cfg) = Some {| perm := mode_0600; data := [] |}.
Proof.
  intros H.
  destruct (files s !! getCfgPath (Name cfg)) as [fd|] eqn:Hc.
  { rewrite (Save_cfg_exists cfg env s fd Hc) in H. congruence. }
  destruct (create_fault env (getCfgPath (Name cfg))) as [en|] eqn:Hcf.
  { rewrite (Save_cfg_refused cfg env s en Hc Hcf) in H. congruence. }
  destruct (files s !! getKeyPath (Name cfg)) as [fd|] eqn:Hk.
  { destruct (Save_key_failed cfg env s Hc Hcf) as (en & Heq & _).
    - left. rewrite Hk. eauto.
    - rewrite Heq in H. congruence. }
  destruct (create_fault env (getKeyPath (Name cfg))) as [en|] eqn:Hkf.
  { destruct (Save_key_failed cfg env s Hc Hcf) as (en' & Heq & _).
    - right. rewrite Hkf. eauto.
    - rewrite Heq in H. congruence. }
  pose proof (Save_created_outcome cfg env s _ _ Hc Hcf Hk Hkf H) as (w & Hfiles).
  pose proof (getCfgPath_ne_getKeyPath (Name cfg) (Name cfg)) as Hne.
  split; [done|]. split; [done|]. rewrite Hfiles. split.
  - rewrite lookup_insert_ne by done. rewrite lookup_insert_eq. eauto.
  - by rewrite lookup_insert_eq.
Qed.

(** C2, as it holds: when the random source cannot supply bytes while
    [Save] renders the document (both files created, the text before
    the device name written), the failure is fatal: the process is
    terminated inside the interface name allocation, with the context
    [Generating interface name], and [Save] does not return to its
    caller. *)
Theorem Save_no_entropy_fatal (cfg : OpenVpnCfg) (env : Env) (s : State) (en : Errno) :
  files s !! getCfgPath (Name cfg) = None →
  create_fault env (getCfgPath (Name cfg)) = None →
  files s !! getKeyPath (Name cfg) = None →
  create_fault env (getKeyPath (Name cfg)) = None →
  write_fault env (nwrites s) = None →
  rand_fault env (nrand s) = Some en →
  ∃ s', Save cfg env s = (Fatal "Generating interface name" (RandError en), s').
Proof.
  intros Hc Hcf Hk Hkf Hw Hr. rewrite Save_created by done.
  unfold Execute. destruct openVpnCfgTpl_nodes as [_ ->].
  cbn [walk]. unfold_M. unfold Write at 1. unfold both_created.
  cbn [fname files set_files nwrites].
  rewrite lookup_insert_ne by (symmetry; apply getCfgPath_ne_getKeyPath).
  rewrite lookup_insert_eq, Hw.
  change (evalField ?d "NewInterfaceName")
    with (M_bind (λ r, match r with
                       | Ok n => M_ret (Ok (VString n))
                       | Err e => M_ret (Err (CallError "NewInterfaceName" (Error e)))
                       end)
            (safeCall (NewInterfaceName (embedded d)))).
  unfold M_bind, safeCall. rewrite NewInterfaceName_eq. cbn [nrand set_files].
  rewrite Hr. eauto.
Qed.

(** C2, as stated, fails: with a random source that cannot supply
    bytes, [Save] for the network [lab1] on a store without its two
    files reports no error to its caller and does not restore the
    store.  The process is terminated while the interface name is
    generated, and both files just created are left behind, the config
    file holding the template up to the device line and the key file
    empty. *)
Lemma Save_no_entropy_leaves_files :
  let r := Save cfg_lab1 env_no_entropy st_fresh in
  rand_fault env_no_entropy (nrand st_fresh) = Some EIO ∧
  ¬ (∃ e s', r = (Returns (Some e), s') ∧ files s' = files st_fresh) ∧
  r.1 = Fatal "Generating interface name" (RandError EIO) ∧
  files st_fresh !! getCfgPath "lab1" = None ∧
  files st_fresh !! getKeyPath "lab1" = None ∧
  (lines ∘ string_of_bytes ∘ data) <$> (files r.2 !! getCfgPath "lab1")
    = Some [""; "# This file is automatically generated by hil-vpn-privop; do not modify manually.";
            ""; "dev tap"] ∧
  files r.2 !! getKeyPath "lab1" = Some {| perm := mode_0600; data := [] |}.
Proof.
  intros r. split; [reflexivity|]. split.
  { intros (e & s' & H & _). apply (f_equal fst) in H.
    vm_compute in H. discriminate H. }
  repeat split; vm_compute; reflexivity.
Qed.

(** ** Sample runs *)

Lemma Save_error_restores_files_witness :
  let s' := {| files := files st_fresh; nwrites := 12; nrand := 1 |} in
  Save cfg_lab1 env_key_write_fails st_fresh
    = (Returns (Some (PathError "write" (getKeyPath "lab1") ENOSPC)), s') ∧
  files s' = files st_fresh.
Proof.
  intros s'.
  assert (H : Save cfg_lab1 env_key_write_fails st_fresh
              = (Returns (Some (PathError "write" (getKeyPath "lab1") ENOSPC)), s'))
    by (vm_compute; reflexivity).
  exact (conj H (proj1 (Save_error_restores_files _ _ _ _ _ H))).
Defined.

Lemma Save_success_files_witness :
  let s' := (Save cfg_lab1 env_ok st_fresh).2 in
  Save cfg_lab1 env_ok st_fresh = (Returns None, s') ∧
  files s' !! getKeyPath "lab1"
    = Some {| perm := mode_0600; data := bytes_of_string "0123456789abcdef" |}.
Proof.
  intros s'.
  assert (H : Save cfg_lab1 env_ok st_fresh = (Returns None, s'))
    by (vm_compute; reflexivity).
  exact (conj H (proj1 (proj2 (proj2 (proj2 (Save_success_files _ _ _ _ H)))))).
Defined.

Lemma Save_cfg_collision_witness :
  files st_cfg_exists !! getCfgPath (Name cfg_lab1) = Some other_file ∧
  ∃ s',
    Save cfg_lab1 env_ok st_cfg_exists
      = (Returns (Some (PathError "open" (getCfgPath (Name cfg_lab1)) EEXIST)), s') ∧
    files s' !! getCfgPath (Name cfg_lab1) = Some other_file ∧
    files s' !! getKeyPath (Name cfg_lab1) = files st_cfg_exists !! getKeyPath (Name cfg_lab1) ∧
    s' = st_cfg_exists.
Proof.
  assert (H : files st_cfg_exists !! getCfgPath (Name cfg_lab1) = Some other_file)
    by (vm_compute; reflexivity).
  exact (conj H (Save_cfg_collision cfg_lab1 env_ok st_cfg_exists other_file H)).
Defined.

Lemma Save_key_collision_witness :
  files st_key_exists !! getKeyPath (Name cfg_lab1) = Some other_file ∧
  files st_key_exists !! getCfgPath (Name cfg_lab1) = None ∧
  ∃ e s',
    Save cfg_lab1 env_ok st_key_exists = (Returns (Some e), s') ∧
    files s' !! getCfgPath (Name cfg_lab1) = None ∧
    files s' !! getKeyPath (Name cfg_lab1) = Some other_file ∧
    files s' = files st_key_exists ∧
    (create_fault env_ok (getCfgPath (Name cfg_lab1)) = None →
     e = PathError "open" (getKeyPath (Name cfg_lab1)) EEXIST).
Proof.
  assert (Hk : files st_key_exists !! getKeyPath (Name cfg_lab1) = Some other_file)
    by (vm_compute; reflexivity).
  assert (Hc : files st_key_exists !! getCfgPath (Name cfg_lab1) = None)
    by (vm_compute; reflexivity).
  exact (conj Hk (conj Hc (Save_key_collision cfg_lab1 env_ok st_key_exists other_file Hk Hc))).
Defined.

Lemma NewInterfaceName_spec_witness :
  let s' := {| files := files st_fresh; nwrites := 0; nrand := 1 |} in
  NewInterfaceName cfg_lab1 env_ok st_fresh = (Returns "ABEiM0RVZneI", s') ∧
  ∃ data : bytes,
    rand_Read (replicate 16 Byte.x00) env_ok st_fresh = (Returns (data, 16%nat, None), s') ∧
    length data = 16%nat ∧
    "ABEiM0RVZneI" = String.substring 0 12 (EncodeToString RawURLEncoding data) ∧
    String.length "ABEiM0RVZneI" = 12%nat ∧
    string_forallb is_urlsafe "ABEiM0RVZneI" = true.
Proof.
  intros s'.
  assert (H : NewInterfaceName cfg_lab1 env_ok st_fresh = (Returns "ABEiM0RVZneI", s'))
    by (vm_compute; reflexivity).
  exact (conj H (NewInterfaceName_spec cfg_lab1 env_ok st_fresh s' "ABEiM0RVZneI" H)).
Defined.

Lemma lab1_rendered_document_witness :
  let s' := (Save cfg_lab1 env_ok st_fresh).2 in
  staticconfig_Libexecdir env_ok = "/usr/libexec/hil-vpn" ∧
  Save cfg_lab1 env_ok st_fresh = (Returns None, s') ∧
  ∃ fd ifname,
    files s' !! getCfgPath "lab1" = Some fd ∧
    String.length ifname = 12%nat ∧ string_forallb is_urlsafe ifname = true ∧
    let ls := lines (string_of_bytes (data fd)) in
    In "lport 1194" ls ∧
    In ("up " +:+ dquote +:+ "/usr/libexec/hil-vpn/hil-vpn-hook-up 42" +:+ dquote) ls ∧
    In "secret hil-vpn-lab1.key" ls ∧
    In "cipher AES-256-CBC" ls ∧
    In "script-security 2" ls ∧
    In ("dev tap" +:+ ifname) ls.
Proof.
  intros s'.
  assert (Hdir : staticconfig_Libexecdir env_ok = "/usr/libexec/hil-vpn")
    by reflexivity.
  assert (H : Save cfg_lab1 env_ok st_fresh = (Returns None, s'))
    by (vm_compute; reflexivity).
  exact (conj Hdir (conj H (lab1_rendered_document env_ok st_fresh s' _ Hdir H))).
Defined.

Lemma Save_no_entropy_fatal_witness :
  files st_fresh !! getCfgPath (Name cfg_lab1) = None ∧
  create_fault env_no_entropy (getCfgPath (Name cfg_lab1)) = None ∧
  files st_fresh !! getKeyPath (Name cfg_lab1) = None ∧
  create_fault env_no_entropy (getKeyPath (Name cfg_lab1)) = None ∧
  write_fault env_no_entropy (nwrites st_fresh) = None ∧
  rand_fault env_no_entropy (nrand st_fresh) = Some EIO ∧
  ∃ s', Save cfg_lab1 env_no_entropy st_fresh
        = (Fatal "Generating interface name" (RandError EIO), s').
Proof.
  assert (Hc : files st_fresh !! getCfgPath (Name cfg_lab1) = None)
    by (vm_compute; reflexivity).
  assert (Hk : files st_fresh !! getKeyPath (Name cfg_lab1) = None)
    by (vm_compute; reflexivity).
  exact (conj Hc (conj eq_refl (conj Hk (conj eq_refl (conj eq_refl (conj eq_refl
           (Save_no_entropy_fatal cfg_lab1 env_no_entropy st_fresh EIO
              Hc eq_refl Hk eq_refl eq_refl eq_refl))))))).
Defined.


(** * Further properties *)

(** ** Service names *)

(** X1: distinct network names have distinct service unit names. *)
Theorem getServiceName_inj (n1 n2 : string) :
  getServiceName n1 = getServiceName n2 → n1 = n2.
Proof. unfold getServiceName. apply (inj (String.app "openvpn-server@")). Qed.

(** ** Which bytes an interface name depends on *)

Section NameBytes.

Lemma land_shiftl_low (y x n : N) : x < 2 ^ n → N.land (N.shiftl y n) x = 0.
Proof.
  intros H. apply N.bits_inj. intros i. rewrite N.land_spec, N.bits_0.
  destruct (N.lt_ge_cases i n) as [Hi|Hi]; [by rewrite N.shiftl_spec_low|].
  destruct (N.eq_dec x 0) as [->|Hx]; [by rewrite N.bits_0, Bool.andb_false_r|].
  rewrite (N.bits_above_log2 x i), Bool.andb_false_r; [reflexivity|].
  apply N.lt_le_trans with n; [|exact Hi]. apply N.log2_lt_pow2; lia.
Qed.

Lemma lor_shiftl_low (y x n : N) :
  x < 2 ^ n → N.lor (N.shiftl y n) x = y * 2 ^ n + x.
Proof.
  intros H. pose proof (land_shiftl_low y x n H) as Hd.
  rewrite <- N.lxor_lor by done.
  rewrite <- N.add_nocarry_lxor by done. by rewrite N.shiftl_mul_pow2.
Qed.

(** The 24-bit value packed from three bytes. *)
Lemma pack3_eq (a b c : N) :
  a < 256 → b < 256 → c < 256 →
  N.lor (N.lor (N.shiftl a 16) (N.shiftl b 8)) c = a * 65536 + b * 256 + c.
Proof.
  intros Ha Hb Hc.
  change 16 with (8 + 8). rewrite <- N.shiftl_shiftl, <- N.shiftl_lor.
  rewrite (lor_shiftl_low a b 8) by exact Hb.
  rewrite (lor_shiftl_low _ c 8) by exact Hc.
  change (2 ^ 8) with 256. lia.
Qed.

(** A value below [2^24] is its four 6-bit digits. *)
Lemma sextets_rebuild (w : N) :
  w < 16777216 →
  w = ((((w / 262144) mod 64) * 64 + (w / 4096) mod 64) * 64 + (w / 64) mod 64) * 64
      + w mod 64.
Proof.
  intros Hw.
  pose proof (N.div_mod w 64 ltac:(lia)) as H1.
  pose proof (N.div_mod (w / 64) 64 ltac:(lia)) as H2.
  pose proof (N.div_mod (w / 4096) 64 ltac:(lia)) as H3.
  rewrite N.Div0.div_div in H2. rewrite N.Div0.div_div in H3.
  change (64 * 64) with 4096 in H2. change (4096 * 64) with 262144 in H3.
  assert (H4 : w / 262144 < 64) by (apply N.Div0.div_lt_upper_bound; lia).
  rewrite (N.mod_small (w / 262144) 64 H4).
  generalize dependent (w / 262144). generalize dependent (w / 4096).
  generalize dependent (w / 64). generalize dependent (w mod 64). intros. lia.
Qed.

Lemma sextet_eq (w k : N) : N.land (N.shiftr w k) 0x3F = (w / 2 ^ k) mod 64.
Proof.
  change 0x3F with (N.ones 6). by rewrite N.land_ones, N.shiftr_div_pow2.
Qed.

Lemma alphabet_distinct :
  forallb (λ i, forallb (λ j,
             implb (Ascii.eqb (enc_at RawURLEncoding (N.of_nat i))
                              (enc_at RawURLEncoding (N.of_nat j)))
                   (i =? j)%nat)
             (seq 0 64)) (seq 0 64) = true.
Proof. vm_compute. reflexivity. Qed.

Lemma enc_at_inj (i j : N) :
  i < 64 → j < 64 →
  enc_at RawURLEncoding i = enc_at RawURLEncoding j → i = j.
Proof.
  intros Hi Hj H. pose proof alphabet_distinct as Hall.
  rewrite forallb_forall in Hall.
  specialize (Hall (N.to_nat i) ltac:(apply in_seq; lia)).
  rewrite forallb_forall in Hall.
  specialize (Hall (N.to_nat j) ltac:(apply in_seq; lia)).
  rewrite !N2Nat.id, H, Ascii.eqb_refl in Hall. simpl in Hall.
  apply Nat.eqb_eq in Hall. lia.
Qed.

(** Three bytes can be read back from the four characters they encode to. *)
Lemma Encode_block_inj (a b c a' b' c' : Byte.byte) (r r' : bytes) :
  Encode RawURLEncoding (a :: b :: c :: r) = Encode RawURLEncoding (a' :: b' :: c' :: r') →
  a = a' ∧ b = b' ∧ c = c' ∧ Encode RawURLEncoding r = Encode RawURLEncoding r'.
Proof.
  cbn [Encode]. intros H.
  injection H as H0 H1 H2 H3 Hr.
  apply enc_at_inj in H0, H1, H2, H3; try apply land_0x3F_lt.
  rewrite !sextet_eq in H0, H1, H2.
  change 0x3F with (N.ones 6) in H3. rewrite !N.land_ones in H3.
  pose proof (Byte.to_N_bounded a). pose proof (Byte.to_N_bounded b).
  pose proof (Byte.to_N_bounded c). pose proof (Byte.to_N_bounded a').
  pose proof (Byte.to_N_bounded b'). pose proof (Byte.to_N_bounded c').
  rewrite !pack3_eq in H0, H1, H2, H3 by lia.
  change (2 ^ 18) with 262144 in *. change (2 ^ 12) with 4096 in *.
  change (2 ^ 6) with 64 in *.
  set (v := Byte.to_N a * 65536 + Byte.to_N b * 256 + Byte.to_N c) in *.
  set (v' := Byte.to_N a' * 65536 + Byte.to_N b' * 256 + Byte.to_N c') in *.
  assert (Hv : v = v').
  { rewrite (sextets_rebuild v), (sextets_rebuild v') by (unfold v, v'; lia).
    by rewrite H0, H1, H2, H3. }
  assert (Hn : Byte.to_N a = Byte.to_N a' ∧ Byte.to_N b = Byte.to_N b' ∧
               Byte.to_N c = Byte.to_N c') by (unfold v, v' in Hv; lia).
  destruct Hn as (Ha & Hb & Hc).
  assert (Hinj : ∀ x y, Byte.to_N x = Byte.to_N y → x = y).
  { intros x y Hxy. pose proof (Byte.of_to_N x) as Hx.
    rewrite Hxy, Byte.of_to_N in Hx. congruence. }
  split; [by apply Hinj|]. split; [by apply Hinj|]. split; [by apply Hinj | done].
Qed.

(** The first twelve characters of the encoding of sixteen bytes are
    the encoding of the first nine. *)
Lemma name_of_first_nine (d : bytes) :
  length d = 16%nat →
  String.substring 0 12 (EncodeToString RawURLEncoding d)
  = EncodeToString RawURLEncoding (take 9 d).
Proof.
  intros H.
  do 16 (destruct d as [|? d]; [discriminate H|]).
  destruct d; [reflexivity | discriminate H].
Qed.

Lemma Encode_nine_inj (d d' : bytes) :
  length d = 9%nat → length d' = 9%nat →
  Encode RawURLEncoding d = Encode RawURLEncoding d' → d = d'.
Proof.
  intros H H'.
  do 9 (destruct d as [|? d]; [discriminate H|]).
  destruct d; [|discriminate H].
  do 9 (destruct d' as [|? d']; [discriminate H'|]).
  destruct d'; [|discriminate H'].
  intros (-> & -> & -> & (-> & -> & -> & (-> & -> & -> & _)%Encode_block_inj)
            %Encode_block_inj)%Encode_block_inj.
  reflexivity.
Qed.

End NameBytes.

(** X2: the interface name is the encoding of the first nine of the
    sixteen random bytes: the last seven are not used, and two calls
    return the same name exactly when their first nine bytes agree. *)
Theorem NewInterfaceName_nine_bytes (cfg cfg' : OpenVpnCfg) (env env' : Env)
    (s s1 s' s1' : State) (name name' : string) :
  NewInterfaceName cfg env s = (Returns name, s1) →
  NewInterfaceName cfg' env' s' = (Returns name', s1') →
  let d := rand_byte env (nrand s) <$> seq 0 16 in
  let d' := rand_byte env' (nrand s') <$> seq 0 16 in
  name = EncodeToString RawURLEncoding (take 9 d) ∧
  (name = name' ↔ take 9 d = take 9 d').
Proof.
  intros H H' d d'. rewrite NewInterfaceName_eq in H, H'.
  destruct (rand_fault env (nrand s)); [discriminate|].
  destruct (rand_fault env' (nrand s')); [discriminate|].
  assert (Hld : length d = 16%nat) by (unfold d; by rewrite length_fmap, length_seq).
  assert (Hld' : length d' = 16%nat) by (unfold d'; by rewrite length_fmap, length_seq).
  assert (Hn : name = EncodeToString RawURLEncoding (take 9 d)).
  { rewrite <- name_of_first_nine by done. unfold d. congruence. }
  assert (Hn' : name' = EncodeToString RawURLEncoding (take 9 d')).
  { rewrite <- name_of_first_nine by done. unfold d'. congruence. }
  split; [exact Hn|]. rewrite Hn, Hn'. split; [|by intros ->].
  apply Encode_nine_inj; rewrite length_take; lia.
Qed.

(** X3: [NewInterfaceName] never panics, the slice [[:12]] being always
    in range, and never touches a file or the write counter.  It
    returns exactly when the random read succeeds; otherwise the
    process is terminated with the context [Generating interface name]
    and the error of the random source. *)
Theorem NewInterfaceName_outcomes (cfg : OpenVpnCfg) (env : Env) (s : State) :
  ∃ o s',
    NewInterfaceName cfg env s = (o, s') ∧
    files s' = files s ∧ nwrites s' = nwrites s ∧ nrand s' = S (nrand s) ∧
    (∀ v, o ≠ Panics v) ∧
    ((∃ name, o = Returns name) ↔ rand_fault env (nrand s) = None) ∧
    (∀ en, rand_fault env (nrand s) = Some en ↔
           o = Fatal "Generating interface name" (RandError en)).
Proof.
  rewrite NewInterfaceName_eq. do 2 eexists. split; [reflexivity|].
  cbn [files nwrites nrand]. do 3 (split; [reflexivity|]).
  destruct (rand_fault env (nrand s)) as [en|].
  - split; [done|]. split; [|intros en0; split; congruence].
    split; [by intros [? [=]] | intros [=]].
  - split; [done|]. split; [split; eauto|]. intros en0. split; congruence.
Qed.

(** ** More on the walk over the template *)

Section WalkMore.

Variable env : Env.
Variable dot : templateArg.
Variable wr : OsFile.

Lemma openVpnCfgTpl_known : forallb known_node openVpnCfgTpl = true.
Proof. reflexivity. Qed.

(** A known field evaluates to a value or ends the process in the
    interface name allocation; it reports no error. *)
Lemma evalField_known (f : string) (s : State) :
  known_field f = true →
  ∃ o s',
    evalField dot f env s = (o, s') ∧
    files s' = files s ∧ nwrites s' = nwrites s ∧ (nrand s ≤ nrand s')%nat ∧
    match o with
    | Returns (Ok _) => True
    | Returns (Err _) => False
    | Panics _ => False
    | Fatal ctx e => ctx = "Generating interface name" ∧ ∃ en, e = RandError en
    end ∧
    (rand_fault env (nrand s) = None → ∃ v, o = Returns (Ok v)).
Proof.
  unfold known_field, evalField. cbn [existsb].
  destruct (String.eqb f "NewInterfaceName").
  { intros _. unfold_M. unfold safeCall. rewrite NewInterfaceName_eq.
    destruct (rand_fault env (nrand s)) as [en|]; do 2 eexists;
      (split; [reflexivity|]); cbn [files nwrites nrand];
      repeat split; eauto; try lia; discriminate. }
  destruct (String.eqb f "Name");
    [intros _; do 2 eexists; split; [reflexivity|]; repeat split; eauto|].
  destruct (String.eqb f "Key");
    [intros _; do 2 eexists; split; [reflexivity|]; repeat split; eauto|].
  destruct (String.eqb f "Port");
    [intros _; do 2 eexists; split; [reflexivity|]; repeat split; eauto|].
  destruct (String.eqb f "Vlan");
    [intros _; do 2 eexists; split; [reflexivity|]; repeat split; eauto|].
  destruct (String.eqb f "Libexecdir");
    [intros _; do 2 eexists; split; [reflexivity|]; repeat split; eauto|].
  discriminate.
Qed.

Lemma Write_counters (b : bytes) (s : State) o s' :
  Write wr b env s = (o, s') →
  nrand s' = nrand s ∧ (nwrites s ≤ nwrites s')%nat ∧
  (is_Some (files s !! fname wr) → is_Some (files s' !! fname wr)) ∧
  (∀ n e, o = Returns (n, Some e) → ∃ errno, e = PathError "write" (fname wr) errno) ∧
  (is_Some (files s !! fname wr) → write_fault env (nwrites s) = None →
   ∃ n, o = Returns (n, None) ∧ nwrites s' = S (nwrites s)).
Proof.
  unfold Write. destruct (files s !! fname wr) as [fd|] eqn:Hfd.
  - destruct (write_fault env (nwrites s)) as [[k e]|]; intros H;
      apply pair_equal_spec in H as [<- <-]; cbn [files nwrites nrand];
      rewrite lookup_insert_eq; repeat split; eauto; try lia.
    + intros n e' Heq. exists e. congruence.
    + intros _ Heq. discriminate Heq.
    + intros n e' Heq. congruence.
  - intros H. apply pair_equal_spec in H as [<- <-]. repeat split; eauto.
    + by intros [? [=]].
    + intros n e Heq. exists EBADF. congruence.
    + by intros [? [=]].
Qed.

(** A walk over known nodes reports only write errors on its file, and
    is cut short only by the interface name allocation. *)
Lemma walk_known_outcome (nodes : list Node) :
  forallb known_node nodes = true →
  ∀ s o s',
    walk nodes wr dot env s = (o, s') →
    match o with
    | Returns None => True
    | Returns (Some e) => ∃ errno, e = PathError "write" (fname wr) errno
    | Panics _ => False
    | Fatal ctx e => ctx = "Generating interface name" ∧ ∃ en, e = RandError en
    end.
Proof.
  induction nodes as [|[text|field] rest IH]; intros Hk s o s' H.
  - by apply pair_equal_spec in H as [<- <-].
  - cbn [walk] in H. unfold_M. cbn [forallb known_node andb] in Hk.
    destruct (Write wr (bytes_of_string text) env s) as [o1 s1] eqn:Hw.
    pose proof (Write_counters _ _ _ _ Hw) as (_ & _ & _ & Herr & _).
    apply Write_spec in Hw as (n & err & w1 & -> & _ & _).
    destruct err as [e|].
    + apply pair_equal_spec in H as [<- <-]. by eapply Herr.
    + by eapply IH.
  - cbn [walk] in H. unfold_M. cbn [forallb known_node] in Hk.
    apply andb_true_iff in Hk as [Hf Hk].
    destruct (evalField_known field s Hf) as (o0 & s0 & Hev & _ & _ & _ & Ho0 & _).
    rewrite Hev in H. destruct o0 as [[v|e]|v|ctx e]; try done.
    + destruct (Write wr (bytes_of_string (Sprint v)) env s0) as [o1 s1] eqn:Hw.
      pose proof (Write_counters _ _ _ _ Hw) as (_ & _ & _ & Herr & _).
      apply Write_spec in Hw as (n & err & w1 & -> & _ & _).
      destruct err as [e|].
      * apply pair_equal_spec in H as [<- <-]. by eapply Herr.
      * by eapply IH.
    + by apply pair_equal_spec in H as [<- <-].
Qed.

(** A walk over known nodes goes through when its file exists and
    neither a write nor the random source fails from here on. *)
Lemma walk_progress (nodes : list Node) :
  forallb known_node nodes = true →
  ∀ s,
    is_Some (files s !! fname wr) →
    (∀ k, (nwrites s ≤ k)%nat → write_fault env k = None) →
    (∀ k, (nrand s ≤ k)%nat → rand_fault env k = None) →
    ∃ s', walk nodes wr dot env s = (Returns None, s') ∧
          (nwrites s ≤ nwrites s')%nat.
Proof.
  induction nodes as [|[text|field] rest IH]; intros Hk s Hfile Hw Hr.
  - by exists s.
  - cbn [walk]. unfold_M. cbn [forallb known_node andb] in Hk.
    destruct (Write wr (bytes_of_string text) env s) as [o1 s1] eqn:Hw1.
    pose proof (Write_counters _ _ _ _ Hw1) as (Hr1 & Hn1 & Hf1 & _ & Hok).
    destruct (Hok Hfile (Hw _ (le_n _))) as (n & -> & Hn).
    destruct (IH Hk s1) as (s' & Hwalk & Hle).
    + by apply Hf1.
    + intros k Hk'. apply Hw. lia.
    + intros k Hk'. apply Hr. lia.
    + exists s'. split; [done | lia].
  - cbn [walk]. unfold_M. cbn [forallb known_node] in Hk.
    apply andb_true_iff in Hk as [Hf Hk].
    destruct (evalField_known field s Hf)
      as (o0 & s0 & -> & Hf0 & Hn0 & Hr0 & _ & Hok0).
    destruct (Hok0 (Hr _ (le_n _))) as [v ->].
    destruct (Write wr (bytes_of_string (Sprint v)) env s0) as [o1 s1] eqn:Hw1.
    pose proof (Write_counters _ _ _ _ Hw1) as (Hr1 & Hn1 & Hf1 & _ & Hok).
    destruct Hok as (n & -> & Hn).
    { by rewrite Hf0. }
    { apply Hw. lia. }
    destruct (IH Hk s1) as (s' & Hwalk & Hle).
    + apply Hf1. by rewrite Hf0.
    + intros k Hk'. apply Hw. lia.
    + intros k Hk'. apply Hr. lia.
    + exists s'. split; [done | lia].
Qed.

End WalkMore.

(** ** More on [Save] *)

(** Either one of the two creations is refused, and nothing has
    changed, or both files are created. *)
Lemma Save_cases (cfg : OpenVpnCfg) (env : Env) (s : State) o s' :
  Save cfg env s = (o, s') →
  (s' = s ∧
   ∃ p errno, (p = getCfgPath (Name cfg) ∨ p = getKeyPath (Name cfg)) ∧
              o = Returns (Some (PathError "open" p errno)))
  ∨ (files s !! getCfgPath (Name cfg) = None ∧
     create_fault env (getCfgPath (Name cfg)) = None ∧
     files s !! getKeyPath (Name cfg) = None ∧
     create_fault env (getKeyPath (Name cfg)) = None).
Proof.
  intros H.
  destruct (files s !! getCfgPath (Name cfg)) as [fd|] eqn:Hc.
  { rewrite (Save_cfg_exists cfg env s fd Hc) in H.
    apply pair_equal_spec in H as [<- <-]. left. split; [done|]. eauto. }
  destruct (create_fault env (getCfgPath (Name cfg))) as [en|] eqn:Hcf.
  { rewrite (Save_cfg_refused cfg env s en Hc Hcf) in H.
    apply pair_equal_spec in H as [<- <-]. left. split; [done|]. eauto. }
  destruct (files s !! getKeyPath (Name cfg)) as [fd|] eqn:Hk.
  { destruct (Save_key_failed cfg env s Hc Hcf) as (en & Heq & _).
    - left. rewrite Hk. eauto.
    - rewrite Heq in H. apply pair_equal_spec in H as [<- <-].
      left. split; [done|]. eauto. }
  destruct (create_fault env (getKeyPath (Name cfg))) as [en|] eqn:Hkf.
  { destruct (Save_key_failed cfg env s Hc Hcf) as (en' & Heq & _).
    - right. rewrite Hkf. eauto.
    - rewrite Heq in H. apply pair_equal_spec in H as [<- <-].
      left. split; [done|]. eauto. }
  by right.
Qed.

(** X4: however [Save] ends (nil, an error, or the termination of the
    process), it leaves every path other than its own config and key
    path as it was; in particular the two files of any other network
    are untouched. *)
Theorem Save_touches_only_own_files (cfg : OpenVpnCfg) (env : Env) (s : State) o s' :
  Save cfg env s = (o, s') →
  (∀ p, p ≠ getCfgPath (Name cfg) → p ≠ getKeyPath (Name cfg) →
        files s' !! p = files s !! p) ∧
  (∀ n, n ≠ Name cfg →
        files s' !! getCfgPath n = files s !! getCfgPath n ∧
        files s' !! getKeyPath n = files s !! getKeyPath n).
Proof.
  intros H.
  assert (Hframe : ∀ p, p ≠ getCfgPath (Name cfg) → p ≠ getKeyPath (Name cfg) →
                        files s' !! p = files s !! p).
  { intros p Hpc Hpk.
    destruct (Save_cases _ _ _ _ _ H) as [[-> _]|(Hc & Hcf & Hk & Hkf)]; [done|].
    pose proof (Save_created_outcome cfg env s _ _ Hc Hcf Hk Hkf H) as Hout.
    destruct o as [[e|]|v|ctx e].
    - by rewrite Hout.
    - destruct Hout as (chunks & _ & ->). by rewrite !lookup_insert_ne.
    - done.
    - destruct Hout as (w & ->). by rewrite !lookup_insert_ne. }
  split; [exact Hframe|]. intros n Hn. split; apply Hframe.
  - intros Heq. by apply getCfgPath_inj in Heq.
  - apply getCfgPath_ne_getKeyPath.
  - intros Heq. symmetry in Heq. by apply getCfgPath_ne_getKeyPath in Heq.
  - intros Heq. by apply getKeyPath_inj in Heq.
Qed.

(** X5: every error [Save] returns is the error of opening or of
    writing one of its two files: rendering reports no error of its
    own, every field the template names being one [templateArg] has. *)
Theorem Save_error_kinds (cfg : OpenVpnCfg) (env : Env) (s s' : State) (e : error) :
  Save cfg env s = (Returns (Some e), s') →
  ∃ op p errno,
    e = PathError op p errno ∧
    (op = "open" ∨ op = "write") ∧
    (p = getCfgPath (Name cfg) ∨ p = getKeyPath (Name cfg)).
Proof.
  intros H.
  destruct (Save_cases _ _ _ _ _ H) as [(_ & p & errno & Hp & Ho)|(Hc & Hcf & Hk & Hkf)].
  { exists "open", p, errno. split; [congruence | auto]. }
  rewrite Save_created in H by done. unfold Execute in H.
  destruct (walk openVpnCfgTpl _ _ env (both_created cfg s)) as [o3 s3] eqn:Hw.
  pose proof (walk_known_outcome env _ _ _ openVpnCfgTpl_known _ _ _ Hw) as Ho3.
  destruct o3 as [[e3|]|v|ctx e3]; try done.
  - destruct Ho3 as [errno ->]. cbn [fname] in H.
    exists "write", (getCfgPath (Name cfg)), errno. split; [congruence | auto].
  - destruct (Write _ (bytes_of_string (Key cfg)) env s3) as [o4 s4] eqn:Hw4.
    pose proof (Write_counters env _ _ _ _ _ Hw4) as (_ & _ & _ & Herr & _).
    destruct o4 as [[n [e4|]]|v|ctx e4]; try done.
    destruct (Herr n e4 eq_refl) as [errno ->]. cbn [fname] in H.
    exists "write", (getKeyPath (Name cfg)), errno. split; [congruence | auto].
Qed.

(** X6: [Save] returns nil when neither file exists, the system
    refuses neither creation, and from here on no write and no read of
    the random source fails. *)
Theorem Save_succeeds (cfg : OpenVpnCfg) (env : Env) (s : State) :
  files s !! getCfgPath (Name cfg) = None →
  files s !! getKeyPath (Name cfg) = None →
  create_fault env (getCfgPath (Name cfg)) = None →
  create_fault env (getKeyPath (Name cfg)) = None →
  (∀ k, (nwrites s ≤ k)%nat → write_fault env k = None) →
  (∀ k, (nrand s ≤ k)%nat → rand_fault env k = None) →
  ∃ s', Save cfg env s = (Returns None, s').
Proof.
  intros Hc Hk Hcf Hkf Hw Hr. rewrite Save_created by done. unfold Execute.
  pose proof (getCfgPath_ne_getKeyPath (Name cfg) (Name cfg)) as Hne.
  destruct (walk_progress env
              {| embedded := cfg; Libexecdir := staticconfig_Libexecdir env |}
              {| fname := getCfgPath (Name cfg) |}
              openVpnCfgTpl openVpnCfgTpl_known (both_created cfg s))
    as (s3 & Hwalk & Hle).
  { unfold both_created. cbn [fname files set_files].
    rewrite lookup_insert_ne by done. rewrite lookup_insert_eq. eauto. }
  { exact Hw. }
  { exact Hr. }
  rewrite Hwalk.
  apply walk_spec in Hwalk as (w & Hf3 & _). cbn [fname] in Hf3.
  destruct (Write {| fname := getKeyPath (Name cfg) |} (bytes_of_string (Key cfg)) env s3)
    as [o4 s4] eqn:Hw4.
  pose proof (Write_counters env _ _ _ _ _ Hw4) as (_ & _ & _ & _ & Hok).
  destruct Hok as (n & -> & _).
  - cbn [fname]. rewrite Hf3, lookup_alter_ne by done.
    unfold both_created. cbn [files set_files]. rewrite lookup_insert_eq. eauto.
  - apply Hw. unfold both_created in Hle. cbn [nwrites set_files] in Hle. lia.
  - eauto.
Qed.

(** X7: once [Save] has succeeded for a name, every further [Save] for
    that name, with whatever key, port, VLAN and environment, is
    refused with the collision error on the config path and changes
    nothing. *)
Theorem Save_again_collides (cfg cfg' : OpenVpnCfg) (env env' : Env) (s s1 : State) :
  Save cfg env s = (Returns None, s1) →
  Name cfg' = Name cfg →
  Save cfg' env' s1
    = (Returns (Some (PathError "open" (getCfgPath (Name cfg)) EEXIST)), s1).
Proof.
  intros H Hname.
  apply Save_success_document in H as (ifname & _ & _ & Hfile).
  rewrite <- Hname in Hfile |- *. exact (Save_cfg_exists cfg' env' s1 _ Hfile).
Qed.

(** X8: [Save] is cut short by a fatal error only in the interface name
    allocation, with the error of the random source; it had then
    created both files itself, and both are left behind, the key file
    empty. *)
Theorem Save_fatal_only_random (cfg : OpenVpnCfg) (env : Env) (s s' : State)
    (ctx : string) (e : error) :
  Save cfg env s = (Fatal ctx e, s') →
  ctx = "Generating interface name" ∧ (∃ en, e = RandError en) ∧
  files s !! getCfgPath (Name cfg) = None ∧
  files s !! getKeyPath (Name cfg) = None ∧
  is_Some (files s' !! getCfgPath (Name cfg)) ∧
  files s' !! getKeyPath (Name cfg) = Some {| perm := mode_0600; data := [] |}.
Proof.
  intros H. pose proof (Save_fatal_leaves_files _ _ _ _ _ _ H) as Hleft.
  enough (Hctx : ctx = "Generating interface name" ∧ ∃ en, e = RandError en)
    by (destruct Hctx; done).
  destruct (Save_cases _ _ _ _ _ H)
    as [(_ & p & errno & _ & [=])|(Hc & Hcf & Hk & Hkf)].
  rewrite Save_created in H by done. unfold Execute in H.
  destruct (walk openVpnCfgTpl _ _ env (both_created cfg s)) as [o3 s3] eqn:Hw.
  pose proof (walk_known_outcome env _ _ _ openVpnCfgTpl_known _ _ _ Hw) as Ho3.
  destruct o3 as [[e3|]|v|ctx3 e3]; try done.
  - destruct (Write _ (bytes_of_string (Key cfg)) env s3) as [o4 s4] eqn:Hw4.
    apply Write_spec in Hw4 as (n & err & w & -> & _). by destruct err.
  - destruct Ho3 as [-> [en ->]]. split; [congruence|]. exists en. congruence.
Qed.

(** ** The document, for every config *)

(** The document is its nineteen lines joined by line feeds. *)
Lemma document_join (dot : templateArg) (ifname : string) :
  document dot ifname
  = join_lines
      [""; "# This file is automatically generated by hil-vpn-privop; do not modify manually.";
       ""; "dev tap" +:+ ifname;
       "secret hil-vpn-" +:+ Name (embedded dot) +:+ ".key"; "";
       "# The default cipher is insecure, so we explicitly set the cipher to the openvpn";
       "# project's recommendation. See https://community.openvpn.net/openvpn/wiki/SWEET32";
       "cipher AES-256-CBC"; "";
       "lport " +:+ itoa (Port (embedded dot)); "";
       "up " +:+ dquote +:+ Libexecdir dot +:+ "/hil-vpn-hook-up "
         +:+ itoa (Vlan (embedded dot)) +:+ dquote;
       "# Needed to permit the above to actually run:";
       "script-security 2"; "";
       "user nobody"; "group nobody"; ""].
Proof.
  unfold document, document_chunks, string_concat. cbn [foldr join_lines].
  rewrite !string_app_assoc. reflexivity.
Qed.

(** X9: for every config, the config file a successful [Save] leaves
    holds exactly the nineteen lines of the template, joined by line
    feeds, with the name, the port, the helper directory and the VLAN
    substituted as they are (no escaping, no validation) and a device
    name of [tap] and 12 URL-safe characters; the key is not part of
    the document. *)
Theorem Save_document_exact (cfg : OpenVpnCfg) (env : Env) (s s' : State) :
  Save cfg env s = (Returns None, s') →
  ∃ fd ifname,
    files s' !! getCfgPath (Name cfg) = Some fd ∧
    String.length ifname = 12%nat ∧ string_forallb is_urlsafe ifname = true ∧
    string_of_bytes (data fd)
    = join_lines
        [""; "# This file is automatically generated by hil-vpn-privop; do not modify manually.";
         ""; "dev tap" +:+ ifname;
         "secret hil-vpn-" +:+ Name cfg +:+ ".key"; "";
         "# The default cipher is insecure, so we explicitly set the cipher to the openvpn";
         "# project's recommendation. See https://community.openvpn.net/openvpn/wiki/SWEET32";
         "cipher AES-256-CBC"; "";
         "lport " +:+ itoa (Port cfg); "";
         "up " +:+ dquote +:+ staticconfig_Libexecdir env +:+ "/hil-vpn-hook-up "
           +:+ itoa (Vlan cfg) +:+ dquote;
         "# Needed to permit the above to actually run:";
         "script-security 2"; "";
         "user nobody"; "group nobody"; ""].
Proof.
  intros H. apply Save_success_document in H as (ifname & Hlen & Hsafe & Hfile).
  eexists _, ifname. split; [exact Hfile|]. split; [done|]. split; [done|].
  cbn [data]. unfold string_of_bytes, bytes_of_string.
  rewrite String.string_of_list_byte_of_string. apply document_join.
Qed.

(** ** Key generation followed by saving *)

(** X10: when [NewOpenVpnConfig] returns a config and [Save] of that
    config then returns nil, the subprocess exited with status zero,
    key generation changed nothing, and the key file of the given name,
    which did not exist before, holds exactly the standard output of
    the subprocess, with mode 0600, beside the config file. *)
Theorem generated_key_is_saved (name : string) (vlan port : N) (env : Env)
    (s s1 s2 : State) (cfg : OpenVpnCfg) :
  NewOpenVpnConfig name vlan port env s = (Returns (Some cfg, None), s1) →
  Save cfg env s1 = (Returns None, s2) →
  ∃ output,
    run_process env "openvpn" ["openvpn"; "--genkey"; "--secret"; "/dev/fd/1"]
      = Exited 0 output ∧
    s1 = s ∧
    files s !! getKeyPath name = None ∧
    files s2 !! getKeyPath name = Some {| perm := mode_0600; data := output |} ∧
    is_Some (files s2 !! getCfgPath name).
Proof.
  intros Hnew Hsave.
  unfold NewOpenVpnConfig, Output, Command in Hnew. unfold_M. cbn [Path Args] in Hnew.
  destruct (run_process env "openvpn" ["openvpn"; "--genkey"; "--secret"; "/dev/fd/1"])
    as [cause|[|status] out|signal out]; cbn [N.eqb] in Hnew; try discriminate Hnew.
  assert (Hcfg : cfg = {| Name := name; Port := port; Vlan := vlan;
                          Key := string_of_bytes out |}) by congruence.
  assert (Hs : s1 = s) by congruence.
  subst cfg s1. exists out. split; [done|]. split; [done|].
  destruct (Save_success_created _ _ _ _ Hsave) as (_ & _ & Hk & _).
  pose proof (Save_success_document _ _ _ _ Hsave) as (ifname & _ & _ & Hfile).
  pose proof (Save_created_outcome _ _ _ _ _
                (proj1 (Save_success_created _ _ _ _ Hsave))
                (proj1 (proj2 (Save_success_created _ _ _ _ Hsave)))
                Hk
                (proj2 (proj2 (proj2 (Save_success_created _ _ _ _ Hsave))))
                Hsave) as (chunks & _ & Hfiles).
  cbn [Name Key] in *. split; [exact Hk|]. split; [|by rewrite Hfile].
  rewrite Hfiles, lookup_insert_eq. unfold bytes_of_string, string_of_bytes.
  by rewrite String.list_byte_of_string_of_list_byte.
Qed.

(** X11: [Save] never panics. *)
Theorem Save_never_panics (cfg : OpenVpnCfg) (env : Env) (s s' : State) o :
  Save cfg env s = (o, s') → ∀ v, o ≠ Panics v.
Proof.
  intros H v ->.
  destruct (Save_cases _ _ _ _ _ H)
    as [(_ & p & errno & _ & [=])|(Hc & Hcf & Hk & Hkf)].
  exact (Save_created_outcome cfg env s _ _ Hc Hcf Hk Hkf H).
Qed.

(** ** Sample runs of the further properties *)

Lemma getServiceName_inj_witness :
  getServiceName "lab1" = getServiceName "lab1" ∧ "lab1" = "lab1".
Proof.
  exact (conj eq_refl (getServiceName_inj "lab1" "lab1" eq_refl)).
Defined.

Lemma NewInterfaceName_nine_bytes_witness :
  let s := st_fresh in
  let s1 := {| files := files st_fresh; nwrites := 0; nrand := 1 |} in
  let s2 := {| files := files st_fresh; nwrites := 0; nrand := 2 |} in
  let d := rand_byte env_ok (nrand s) <$> seq 0 16 in
  let d' := rand_byte env_ok (nrand s1) <$> seq 0 16 in
  NewInterfaceName cfg_lab1 env_ok s = (Returns "ABEiM0RVZneI", s1) ∧
  NewInterfaceName cfg_lab2 env_ok s1 = (Returns "ARIjNEVWZ3iJ", s2) ∧
  "ABEiM0RVZneI" = EncodeToString RawURLEncoding (take 9 d) ∧
  ("ABEiM0RVZneI" = "ARIjNEVWZ3iJ" ↔ take 9 d = take 9 d').
Proof.
  intros s s1 s2 d d'.
  assert (H : NewInterfaceName cfg_lab1 env_ok s = (Returns "ABEiM0RVZneI", s1))
    by (vm_compute; reflexivity).
  assert (H' : NewInterfaceName cfg_lab2 env_ok s1 = (Returns "ARIjNEVWZ3iJ", s2))
    by (vm_compute; reflexivity).
  exact (conj H (conj H' (NewInterfaceName_nine_bytes _ _ _ _ _ _ _ _ _ _ H H'))).
Defined.

Lemma Save_touches_only_own_files_witness :
  let r := Save cfg_lab2 env_no_entropy st_lab1_saved in
  r = (r.1, r.2) ∧
  (∀ p, p ≠ getCfgPath (Name cfg_lab2) → p ≠ getKeyPath (Name cfg_lab2) →
        files r.2 !! p = files st_lab1_saved !! p) ∧
  (∀ n, n ≠ Name cfg_lab2 →
        files r.2 !! getCfgPath n = files st_lab1_saved !! getCfgPath n ∧
        files r.2 !! getKeyPath n = files st_lab1_saved !! getKeyPath n).
Proof.
  intros r.
  assert (H : r = (r.1, r.2)) by (vm_compute; reflexivity).
  exact (conj H (Save_touches_only_own_files cfg_lab2 env_no_entropy st_lab1_saved
                   r.1 r.2 H)).
Defined.

Lemma Save_error_kinds_witness :
  let s' := {| files := files st_fresh; nwrites := 12; nrand := 1 |} in
  let e := PathError "write" (getKeyPath "lab1") ENOSPC in
  Save cfg_lab1 env_key_write_fails st_fresh = (Returns (Some e), s') ∧
  ∃ op p errno,
    e = PathError op p errno ∧
    (op = "open" ∨ op = "write") ∧
    (p = getCfgPath (Name cfg_lab1) ∨ p = getKeyPath (Name cfg_lab1)).
Proof.
  intros s' e.
  assert (H : Save cfg_lab1 env_key_write_fails st_fresh = (Returns (Some e), s'))
    by (vm_compute; reflexivity).
  exact (conj H (Save_error_kinds _ _ _ _ _ H)).
Defined.

Lemma Save_succeeds_witness :
  files st_fresh !! getCfgPath (Name cfg_lab1) = None ∧
  files st_fresh !! getKeyPath (Name cfg_lab1) = None ∧
  create_fault env_ok (getCfgPath (Name cfg_lab1)) = None ∧
  create_fault env_ok (getKeyPath (Name cfg_lab1)) = None ∧
  (∀ k, (nwrites st_fresh ≤ k)%nat → write_fault env_ok k = None) ∧
  (∀ k, (nrand st_fresh ≤ k)%nat → rand_fault env_ok k = None) ∧
  ∃ s', Save cfg_lab1 env_ok st_fresh = (Returns None, s').
Proof.
  assert (Hc : files st_fresh !! getCfgPath (Name cfg_lab1) = None)
    by (vm_compute; reflexivity).
  assert (Hk : files st_fresh !! getKeyPath (Name cfg_lab1) = None)
    by (vm_compute; reflexivity).
  assert (Hw : ∀ k, (nwrites st_fresh ≤ k)%nat → write_fault env_ok k = None)
    by (intros; reflexivity).
  assert (Hr : ∀ k, (nrand st_fresh ≤ k)%nat → rand_fault env_ok k = None)
    by (intros; reflexivity).
  exact (conj Hc (conj Hk (conj eq_refl (conj eq_refl (conj Hw (conj Hr
           (Save_succeeds cfg_lab1 env_ok st_fresh Hc Hk eq_refl eq_refl Hw Hr))))))).
Defined.

Lemma Save_again_collides_witness :
  Save cfg_lab1 env_ok st_fresh = (Returns None, st_lab1_saved) ∧
  Name {| Name := "lab1"; Key := "other key"; Port := 1200; Vlan := 7 |} = Name cfg_lab1 ∧
  Save {| Name := "lab1"; Key := "other key"; Port := 1200; Vlan := 7 |}
       env_no_entropy st_lab1_saved
    = (Returns (Some (PathError "open" (getCfgPath (Name cfg_lab1)) EEXIST)),
       st_lab1_saved).
Proof.
  assert (H : Save cfg_lab1 env_ok st_fresh = (Returns None, st_lab1_saved))
    by (vm_compute; reflexivity).
  exact (conj H (conj eq_refl
           (Save_again_collides cfg_lab1
              {| Name := "lab1"; Key := "other key"; Port := 1200; Vlan := 7 |}
              env_ok env_no_entropy st_fresh st_lab1_saved H eq_refl))).
Defined.

Lemma Save_fatal_only_random_witness :
  let r := Save cfg_lab1 env_no_entropy st_fresh in
  r = (Fatal "Generating interface name" (RandError EIO), r.2) ∧
  "Generating interface name" = "Generating interface name" ∧
  (∃ en, RandError EIO = RandError en) ∧
  files st_fresh !! getCfgPath (Name cfg_lab1) = None ∧
  files st_fresh !! getKeyPath (Name cfg_lab1) = None ∧
  is_Some (files r.2 !! getCfgPath (Name cfg_lab1)) ∧
  files r.2 !! getKeyPath (Name cfg_lab1) = Some {| perm := mode_0600; data := [] |}.
Proof.
  intros r.
  assert (H : r = (Fatal "Generating interface name" (RandError EIO), r.2))
    by (vm_compute; reflexivity).
  exact (conj H (Save_fatal_only_random cfg_lab1 env_no_entropy st_fresh r.2 _ _ H)).
Defined.

Lemma Save_document_exact_witness :
  Save cfg_lab2 env_ok st_lab1_saved
    = (Returns None, (Save cfg_lab2 env_ok st_lab1_saved).2) ∧
  ∃ fd ifname,
    files (Save cfg_lab2 env_ok st_lab1_saved).2 !! getCfgPath (Name cfg_lab2) = Some fd ∧
    String.length ifname = 12%nat ∧ string_forallb is_urlsafe ifname = true ∧
    string_of_bytes (data fd)
    = join_lines
        [""; "# This file is automatically generated by hil-vpn-privop; do not modify manually.";
         ""; "dev tap" +:+ ifname;
         "secret hil-vpn-" +:+ Name cfg_lab2 +:+ ".key"; "";
         "# The default cipher is insecure, so we explicitly set the cipher to the openvpn";
         "# project's recommendation. See https://community.openvpn.net/openvpn/wiki/SWEET32";
         "cipher AES-256-CBC"; "";
         "lport " +:+ itoa (Port cfg_lab2); "";
         "up " +:+ dquote +:+ staticconfig_Libexecdir env_ok +:+ "/hil-vpn-hook-up "
           +:+ itoa (Vlan cfg_lab2) +:+ dquote;
         "# Needed to permit the above to actually run:";
         "script-security 2"; "";
         "user nobody"; "group nobody"; ""].
Proof.
  assert (H : Save cfg_lab2 env_ok st_lab1_saved
              = (Returns None, (Save cfg_lab2 env_ok st_lab1_saved).2))
    by (vm_compute; reflexivity).
  exact (conj H (Save_document_exact cfg_lab2 env_ok st_lab1_saved _ H)).
Defined.

Lemma generated_key_is_saved_witness :
  let s2 := (Save cfg_lab1 env_ok st_fresh).2 in
  NewOpenVpnConfig "lab1" 42 1194 env_ok st_fresh = (Returns (Some cfg_lab1, None), st_fresh) ∧
  Save cfg_lab1 env_ok st_fresh = (Returns None, s2) ∧
  ∃ output,
    run_process env_ok "openvpn" ["openvpn"; "--genkey"; "--secret"; "/dev/fd/1"]
      = Exited 0 output ∧
    st_fresh = st_fresh ∧
    files st_fresh !! getKeyPath "lab1" = None ∧
    files s2 !! getKeyPath "lab1" = Some {| perm := mode_0600; data := output |} ∧
    is_Some (files s2 !! getCfgPath "lab1").
Proof.
  intros s2.
  assert (Hnew : NewOpenVpnConfig "lab1" 42 1194 env_ok st_fresh
                 = (Returns (Some cfg_lab1, None), st_fresh))
    by (vm_compute; reflexivity).
  assert (Hsave : Save cfg_lab1 env_ok st_fresh = (Returns None, s2))
    by (vm_compute; reflexivity).
  exact (conj Hnew (conj Hsave
           (generated_key_is_saved "lab1" 42 1194 env_ok st_fresh st_fresh s2 cfg_lab1
              Hnew Hsave))).
Defined.

Lemma Save_never_panics_witness :
  let r := Save cfg_lab1 env_no_entropy st_fresh in
  r = (r.1, r.2) ∧ ∀ v, r.1 ≠ Panics v.
Proof.
  intros r.
  assert (H : r = (r.1, r.2)) by (vm_compute; reflexivity).
  exact (conj H (Save_never_panics cfg_lab1 env_no_entropy st_fresh r.2 r.1 H)).
Defined.
